(** * imc: project model, segmentation glue and the segment command

    A shallow embedding of the parts of [imc] that its specification makes
    statements about:

    - [imc/segmentation.py]: [prepare_stack], [deepcell_resize_to_predict_shape],
      [deepcell_segment], [stardist_segment_nuclei], [segment_roi];
    - [imc/scripts/segment_stacks.py]: [main];
    - [imc/data_models/project.py]: [Project.__init__], [_detect_samples],
      [_initialize_project_from_annotation], [rois], [_get_rois],
      [_get_input_filename], [get_samples], [get_rois], [cluster_cells],
      [clusters], [set_clusters] and the testing loops of
      [sample_comparisons];
    - [imc/types.py]: [Path.replace_], [Path.iterdir];
    - [imc/scripts/inspect_ilastik_model.py]: [convert_model_data].

    Python exceptions are values of [exn]; a computation that may raise
    returns a [res].  Calls into numpy, scikit-image, pandas, scipy and the
    pretrained models are kept behind small interfaces whose laws are stated
    where a property needs them. *)

From Stdlib Require Import ZArith Ascii DecimalString DecimalZ DecimalPos.
From stdpp Require Import base option list strings gmap fin_maps.

(** ** Python values common to all modules *)

Module Py.

(** The exception classes that the modelled code can raise. *)
Inductive exn : Set :=
| AssertionError
| ValueError
| KeyError
| IndexError
| TypeError
| AttributeError
| UnboundLocalError
| FileExistsError
| FileNotFoundError
| NotADirectoryError
| IsADirectoryError
| TiffFileError
| SyntaxError.

#[global] Instance exn_eq_dec : EqDecision exn.
Proof. solve_decision. Defined.

(** The outcome of a call: a value, or a raised exception. *)
Inductive res (A : Type) : Type :=
| Ok (a : A)
| Raise (e : exn).
Arguments Ok {A} a.
Arguments Raise {A} e.

#[global] Instance res_ret : MRet res := λ A, Ok.
#[global] Instance res_bind : MBind res := λ A B f m,
  match m with
  | Ok a => f a
  | Raise e => Raise e
  end.

(** [assert b] *)
Definition assert (b : bool) : res unit :=
  if b then Ok tt else Raise AssertionError.

Definition is_ok {A} (r : res A) : bool :=
  match r with Ok _ => true | Raise _ => false end.

(** [sub in s] on [str]. *)
Fixpoint contains (sub s : string) : bool :=
  String.prefix sub s ||
  match s with
  | EmptyString => false
  | String _ s' => contains sub s'
  end.

(** [s.replace(old, new)] scans left to right and replaces the
    non-overlapping occurrences of [old]; [skip] counts the characters of
    the occurrence just replaced that are still to be dropped. *)
Fixpoint replace_from (old new : string) (skip : nat) (s : string) : string :=
  match s with
  | EmptyString => EmptyString
  | String c s' =>
      match skip with
      | S k => replace_from old new k s'
      | O =>
          if String.prefix old s
          then new +:+ replace_from old new (String.length old - 1) s'
          else String c (replace_from old new 0 s')
      end
  end.

Fixpoint intersperse_str (new s : string) : string :=
  match s with
  | EmptyString => new
  | String c s' => new +:+ String c (intersperse_str new s')
  end.

Definition replace (old new s : string) : string :=
  match old with
  | EmptyString => intersperse_str new s
  | _ => replace_from old new 0 s
  end.
#[global] Arguments replace : simpl never.

(** [s.split(sep)] for a one-character separator. *)
Fixpoint split_on (sep : Ascii.ascii) (s : string) : list string :=
  match s with
  | EmptyString => [EmptyString]
  | String c s' =>
      if decide (c = sep) then EmptyString :: split_on sep s'
      else match split_on sep s' with
           | [] => [String c EmptyString]
           | w :: ws => String c w :: ws
           end
  end.

(** Boolean-mask indexing along the first axis, [xs[mask]]: numpy raises
    [IndexError] when the mask is not as long as the axis. *)
Fixpoint select {A} (xs : list A) (mask : list bool) : list A :=
  match xs, mask with
  | x :: xs', b :: mask' =>
      if b then x :: select xs' mask' else select xs' mask'
  | _, _ => []
  end.

Definition bool_index {A} (xs : list A) (mask : list bool) : res (list A) :=
  if decide (length xs = length mask) then Ok (select xs mask)
  else Raise IndexError.

End Py.
Import Py.

(** ** imc/segmentation.py *)

Module Segmentation.

(** What the segmentation code asks of numpy, scikit-image and the two
    pretrained models. *)
Class ArrayOps (Array : Type) := {
  (** [a.shape] *)
  shape : Array → list nat;
  (** [[x for x in a]]: the planes of [a] along its first axis *)
  planes : Array → list Array;
  (** [skimage.exposure.equalize_hist]: ValueError for an image that
      holds a NaN or an infinity, which has no histogram *)
  equalize_hist : Array → res Array;
  (** [np.asarray(xs).mean(0)], for arrays of one shape; the mean of no
      array is a NaN without axes *)
  mean0 : list Array → Array;
  (** [np.stack((a, b))]: ValueError when the shapes differ *)
  np_stack : Array → Array → res Array;
  (** [np.moveaxis(a, 0, -1)] *)
  moveaxis_0_last : Array → Array;
  (** [a[np.newaxis, :, :, np.newaxis]] and [a[np.newaxis, ...]] *)
  newaxis_both : Array → Array;
  newaxis_front : Array → Array;
  (** [skimage.transform.resize(a, output_shape)] *)
  resize : Array → list nat → res Array;
  (** [a.squeeze()] *)
  squeeze : Array → Array;
  (** [a[..., i]] *)
  last_axis : Array → nat → res Array;
  (** [StarDist2D.from_pretrained(model_str).predict_instances(a)[0]] *)
  predict_instances : string → Array → Array;
  (** [app.predict(a)] of the deepcell application named by the string;
      [MultiplexSegmentation] is called with [compartment="both"]. *)
  app_predict : string → Array → Array;
}.

(** The pretrained models that get loaded to be applied to an image, and
    what is written out. *)
Inductive event : Set :=
| Invoke (model : string)
| Imwrite (file : string)
| Plot
| Savefig (file : string).

(** A run: the events so far, then a value or an exception. *)
Definition Run (A : Type) : Type := list event * res A.

#[global] Instance run_ret : MRet Run := λ A a, ([], Ok a).
#[global] Instance run_bind : MBind Run := λ A B f m,
  match m with
  | (l, Ok a) => let '(l', r) := f a in (l ++ l', r)
  | (l, Raise e) => (l, Raise e)
  end.

Definition lift {A} (r : res A) : Run A := ([], r).
Definition emit (e : event) : Run unit := ([e], Ok tt).

(** The attributes of a ROI (or of the [ROI_mock] of the segment command)
    that [segment_roi] reads.  [stack] and [channel_labels] are properties
    that load a file when they are read, so reading them can raise;
    [roi_path_exists f] stands for [f.exists()]. *)
Record ROI (Array : Type) := {
  roi_stack : res Array;
  roi_channel_labels : res (list string);
  roi_channel_exclude : option (list bool);
  roi_get_input_filename : string → res string;
  roi_path_exists : string → bool;
}.
Arguments roi_stack {Array} _.
Arguments roi_channel_labels {Array} _.
Arguments roi_channel_exclude {Array} _.
Arguments roi_get_input_filename {Array} _.
Arguments roi_path_exists {Array} _.

Section WithArrays.
Context {Array : Type} `{ArrayOps Array}.

(** [channel_labels.str.contains("DNA")] *)
Definition nuclear_chs (channel_labels : list string) : list bool :=
  map (contains "DNA") channel_labels.

(** [~channel_labels.str.contains("DNA|Ki67|SMA")]: the pattern is an
    alternation of three literals. *)
Definition cyto_chs (channel_labels : list string) : list bool :=
  map (λ l, negb (contains "DNA" l || contains "Ki67" l || contains "SMA" l))
      channel_labels.

Definition prepare_stack (stack : Array) (channel_labels : list string)
    (compartment : string) (channel_exclude : option (list bool))
  : res Array :=
  _ ← assert (bool_decide (compartment ∈ ["nuclear"; "cytoplasm"; "both"]));
  let stack := planes stack in
  '(stack, channel_labels) ←
    match channel_exclude with
    | Some exclude =>
        stack' ← bool_index stack (map negb exclude);
        labels' ← bool_index channel_labels (map negb exclude);
        Ok (stack', labels')
    | None => Ok (stack, channel_labels)
    end;
  (* Get nuclear channels *)
  nuclear ← bool_index stack (nuclear_chs channel_labels);
  equalized ← mapM equalize_hist nuclear;
  let nucl := mean0 equalized in
  if decide (compartment = "nuclear") then Ok nucl else
  (* Get cytoplasmatic channels *)
  cytoplasm ← bool_index stack (map negb (cyto_chs channel_labels));
  equalized ← mapM equalize_hist cytoplasm;
  let cyto := mean0 equalized in
  if decide (compartment = "cytoplasm") then Ok cyto else
  (* Combined together *)
  np_stack nucl cyto.

(** [StarDist2D.from_pretrained] comes first, then [eq(image)], then the
    prediction. *)
Definition stardist_segment_nuclei (image : Array) : Run Array :=
  _ ← emit (Invoke "StarDist2D");
  equalized ← lift (equalize_hist image);
  mret (predict_instances "2D_versatile_fluo" equalized).

Definition deepcell_resize_to_predict_shape (image : Array) : res Array :=
  if decide (length (shape image) = 2) then
    r ← resize image [256; 256];
    Ok (newaxis_both r)
  else if decide (length (shape image) = 3) then
    r ← resize (moveaxis_0_last image) [256; 256; hd 0 (shape image)];
    Ok (newaxis_front r)
  else Raise ValueError.

(** One of the three [if compartment == ...] blocks of
    [deepcell_segment]. *)
Definition deepcell_app (compartment app : string) (image : Array)
    (pred : option Array) : Run (option Array) :=
  if decide (compartment = app) then
    _ ← emit (Invoke
          (if decide (app = "nuclear") then "NuclearSegmentation"
           else if decide (app = "cytoplasm") then "CytoplasmSegmentation"
           else "MultiplexSegmentation"));
    mret (Some (squeeze (app_predict app image)))
  else mret pred.

Definition deepcell_segment (image : Array) (compartment : option string)
  : Run Array :=
  let compartment :=
    match compartment with
    | Some c => c
    | None => if decide (1 < List.last (shape image) 0) then "both"
              else "nuclear"
    end in
  pred ← deepcell_app compartment "nuclear" image None;
  pred ← deepcell_app compartment "cytoplasm" image pred;
  pred ← deepcell_app compartment "both" image pred;
  match pred with
  | None => lift (Raise UnboundLocalError)
  | Some pred =>
      if decide (length (shape pred) = 4)
      then lift (resize pred (tail (shape image)))
      else mret pred
  end.

(** [mask_dict] of [segment_roi], in insertion order. *)
Definition mask_dict (compartment : string) (mask : Array)
  : res (list (string * Array)) :=
  if decide (compartment = "both") then
    cell ← last_axis mask 0;
    nuclei ← last_axis mask 1;
    Ok [("cell", cell); ("nuclei", nuclei)]
  else if decide (compartment = "nuclear") then Ok [("nuclei", mask)]
  else if decide (compartment = "cytoplasm") then Ok [("cell", mask)]
  else Ok [].

(** [overwrite or (not overwrite and not file.exists())] *)
Definition may_write (roi : ROI Array) (overwrite : bool) (file : string)
  : bool :=
  overwrite || (negb overwrite && negb (roi_path_exists roi file)).

Fixpoint save_masks (roi : ROI Array) (overwrite : bool)
    (masks : list (string * Array)) : Run unit :=
  match masks with
  | [] => mret tt
  | (comp, _) :: rest =>
      mask_file ← lift (roi_get_input_filename roi (comp +:+ "_mask"));
      _ ← (if may_write roi overwrite mask_file
           then emit (Imwrite mask_file) else mret tt);
      save_masks roi overwrite rest
  end.

Definition segment_roi (roi : ROI Array) (model compartment : string)
    (save overwrite plot_segmentation : bool) : Run Array :=
  _ ← lift (assert (bool_decide (model ∈ ["deepcell"; "stardist"])));
  stack ← lift (roi_stack roi);
  channel_labels ← lift (roi_channel_labels roi);
  image ← lift (prepare_stack stack channel_labels
                  compartment (roi_channel_exclude roi));
  mask ←
    (if decide (model = "stardist") then
       _ ← lift (assert (bool_decide (compartment = "nuclear")));
       stardist_segment_nuclei image
     else
       input_image ← lift (deepcell_resize_to_predict_shape image);
       mask ← deepcell_segment input_image (Some compartment);
       mask ← (if decide (length (shape image) = 2)
               then lift (resize mask (take 2 (shape image)))
               else mret mask);
       if decide (length (shape image) = 3)
       then lift (resize mask (take 2 (drop 1 (shape image)) ++ [2]))
       else mret mask);
  masks ← lift (mask_dict compartment mask);
  _ ← (if save then save_masks roi overwrite masks else mret tt);
  _ ← (if plot_segmentation then
         _ ← emit Plot;
         if save then
           stack_file ← lift (roi_get_input_filename roi "stack");
           let fig_file := replace ".tiff" "_segmentation.svg" stack_file in
           if may_write roi overwrite fig_file
           then emit (Savefig fig_file) else mret tt
         else mret tt
       else mret tt);
  mret mask.

(** What the specification says of [prepare_stack], in its words: the
    nuclear image is the mean of the equalized channels whose label
    contains "DNA", the cytoplasm image is the mean of the equalized
    channels whose label does not match "DNA|Ki67|SMA", and "both" is the
    stack of the two.  Compared with [prepare_stack] above. *)
Definition spec_image (stack : Array) (chs : list bool) : res Array :=
  channels ← bool_index (planes stack) chs;
  equalized ← mapM equalize_hist channels;
  Ok (mean0 equalized).

Definition spec_prepare_stack (stack : Array) (channel_labels : list string)
    (compartment : string) : res Array :=
  _ ← assert (bool_decide (compartment ∈ ["nuclear"; "cytoplasm"; "both"]));
  if decide (compartment = "nuclear")
  then spec_image stack (nuclear_chs channel_labels)
  else if decide (compartment = "cytoplasm")
  then spec_image stack (cyto_chs channel_labels)
  else
    nucl ← spec_image stack (nuclear_chs channel_labels);
    cyto ← spec_image stack (cyto_chs channel_labels);
    np_stack nucl cyto.

(** The planes and the labels that [prepare_stack] works on, once the
    excluded channels are taken out. *)
Definition kept {A} (xs : list A) (channel_exclude : option (list bool))
  : list A :=
  match channel_exclude with
  | Some exclude => select xs (map negb exclude)
  | None => xs
  end.


End WithArrays.

(** [skimage.transform.resize] on shapes: an output shape with more
    entries than the image has axes reshapes the image first; one entry
    fewer means that the last axis holds channels and is kept; still fewer
    is refused. *)
Definition resize_shape (input output_shape : list nat) : list nat :=
  if decide (length output_shape + 1 = length input)
  then output_shape ++ [List.last input 0]
  else output_shape.

(** How the library calls act on shapes, and where they are defined.
    An equalized image has its values between 0 and 1, and so has the mean
    of equalized images of one shape: it can be equalized again.  The last
    two laws are what the pretrained models are documented to return:
    StarDist a label image of the size of its 2D input; a deepcell
    application one plane per requested compartment for a batch of
    images. *)
Class ShapeLaws (Array : Type) `{ArrayOps Array} : Prop := {
  shape_planes a x : x ∈ planes a → shape x = tail (shape a);
  shape_equalize_hist a r : equalize_hist a = Ok r → shape r = shape a;
  shape_mean0_nil : shape (mean0 []) = [];
  equalize_hist_mean0 xs equalized :
    (∀ x y, x ∈ xs → y ∈ xs → shape x = shape y) →
    mapM equalize_hist xs = Ok equalized →
    equalized ≠ [] →
    is_ok (equalize_hist (mean0 equalized)) = true;
  shape_moveaxis_0_last a :
    shape (moveaxis_0_last a) = tail (shape a) ++ take 1 (shape a);
  shape_newaxis_both a : shape (newaxis_both a) = 1 :: shape a ++ [1];
  shape_newaxis_front a : shape (newaxis_front a) = 1 :: shape a;
  resize_defined a s :
    length (shape a) ≤ length s + 1 →
    ∃ r, resize a s = Ok r ∧ shape r = resize_shape (shape a) s;
  shape_squeeze a :
    shape (squeeze a) = List.filter (λ n, negb (n =? 1)) (shape a);
  last_axis_defined a i :
    i < List.last (shape a) 0 → is_ok (last_axis a i) = true;
  shape_predict_instances name a :
    length (shape a) = 2 → shape (predict_instances name a) = shape a;
  shape_app_predict app a b x y c :
    shape a = [b; x; y; c] →
    shape (app_predict app a)
    = [b; x; y; if decide (app = "both") then 2 else 1];
}.

End Segmentation.

(** A free model of the array interface: an array is the expression that
    builds it, and its shape is computed from the expression. *)
Module Symbolic.
Import Segmentation.

#[warnings="-register-all"] Inductive sym : Set :=
| Input (id : nat) (dims : list nat)
| Plane (a : sym) (i : nat)
| EqualizeHist (a : sym)
| Mean0 (xs : list sym)
| Stack (a b : sym)
| Moveaxis (a : sym)
| NewaxisBoth (a : sym)
| NewaxisFront (a : sym)
| Resize (a : sym) (output_shape : list nat)
| Squeeze (a : sym)
| LastAxis (a : sym) (i : nat)
| PredictInstances (name : string) (a : sym)
| AppPredict (app : string) (a : sym).

Fixpoint sym_shape (a : sym) : list nat :=
  match a with
  | Input _ dims => dims
  | Plane a _ => tail (sym_shape a)
  | EqualizeHist a => sym_shape a
  | Mean0 xs => match xs with [] => [] | x :: _ => sym_shape x end
  | Stack a _ => 2 :: sym_shape a
  | Moveaxis a => tail (sym_shape a) ++ take 1 (sym_shape a)
  | NewaxisBoth a => 1 :: sym_shape a ++ [1]
  | NewaxisFront a => 1 :: sym_shape a
  | Resize a s => resize_shape (sym_shape a) s
  | Squeeze a => List.filter (λ n, negb (n =? 1)) (sym_shape a)
  | LastAxis a _ => removelast (sym_shape a)
  | PredictInstances _ a => sym_shape a
  | AppPredict app a =>
      match sym_shape a with
      | [b; x; y; c] => [b; x; y; if decide (app = "both") then 2 else 1]
      | s => s
      end
  end.

(** The arrays all of whose values are finite: an input is taken to be
    one, the mean of no array is not. *)
Fixpoint sym_finite (a : sym) : bool :=
  match a with
  | Input _ _ | EqualizeHist _ | PredictInstances _ _ | AppPredict _ _ => true
  | Mean0 xs => match xs with [] => false | _ => forallb sym_finite xs end
  | Stack a b => sym_finite a && sym_finite b
  | Plane a _ | Moveaxis a | NewaxisBoth a | NewaxisFront a | Resize a _
  | Squeeze a | LastAxis a _ => sym_finite a
  end.

#[global] Instance sym_ops : ArrayOps sym := {|
  shape := sym_shape;
  planes a := map (Plane a) (seq 0 (hd 0 (sym_shape a)));
  equalize_hist a :=
    if sym_finite a then Ok (EqualizeHist a) else Raise ValueError;
  mean0 := Mean0;
  np_stack a b :=
    if decide (sym_shape a = sym_shape b) then Ok (Stack a b)
    else Raise ValueError;
  moveaxis_0_last := Moveaxis;
  newaxis_both := NewaxisBoth;
  newaxis_front := NewaxisFront;
  resize a s :=
    if decide (length (sym_shape a) ≤ length s + 1) then Ok (Resize a s)
    else Raise ValueError;
  squeeze := Squeeze;
  last_axis a i :=
    if decide (i < List.last (sym_shape a) 0) then Ok (LastAxis a i)
    else Raise IndexError;
  predict_instances := PredictInstances;
  app_predict := AppPredict;
|}.

(** A ROI with a DNA channel and a membrane marker, 4 by 4 pixels. *)
Definition example_stack : sym := Input 0 [2; 4; 4].
Definition example_labels : list string := ["DNA1(Ir191)"; "CD45(Sm152)"].
Definition example_roi : ROI sym := {|
  roi_stack := Ok example_stack;
  roi_channel_labels := Ok example_labels;
  roi_channel_exclude := None;
  roi_get_input_filename := λ t, Ok ("roi1_" +:+ t +:+ ".tiff");
  roi_path_exists := λ _, false;
|}.

(** A ROI without a DNA channel, the second channel excluded. *)
Definition unlabelled_roi : ROI sym := {|
  roi_stack := Ok example_stack;
  roi_channel_labels := Ok ["CD45(Sm152)"; "CD3(Er170)"];
  roi_channel_exclude := Some [false; true];
  roi_get_input_filename := λ t, Ok ("roi1_" +:+ t +:+ ".tiff");
  roi_path_exists := λ _, false;
|}.


End Symbolic.

(** ** imc/scripts/segment_stacks.py *)

Module SegmentStacks.
Import Segmentation.

(** What a file holds, as far as the command reads it back. *)
Inductive content (Array : Type) : Type :=
| Labels (channel_labels : list string)
| Tiff (a : Array)
| Figure.
Arguments Labels {Array} _.
Arguments Tiff {Array} _.
Arguments Figure {Array}.

(** The parsed command line ([argparse.Namespace]). *)
Record Args := {
  tiffs : list string;
  model : string;
  compartment : string;
  channel_exclude : string;
  output_mask_suffix : string;
  save : bool;
  overwrite : bool;
  plot : bool;
}.

Record ROI_mock := {
  stack_file : string;
  channel_labels_file : string;
  roi_exclude : option (list bool);
  name : string;
}.

Inductive message : Set :=
| Starting (n : nat) (files : list string)
| MissingLabels (tiff : string)
| Started (roi : string) (dims : list nat)
| FigureFile (file : string)
| Finished (roi : string)
| FinishedAll.

Inductive event : Set :=
| Print (m : message)
| Seg (e : Segmentation.event)
| WriteMask (file : string)
| WriteFigure (file : string).

(** The part of [s] after its last [sep], and [s] cut before its last
    [sep] ([None] when [sep] does not occur). *)
Fixpoint after_last (sep : Ascii.ascii) (s : string) : string :=
  match s with
  | EmptyString => EmptyString
  | String c s' =>
      if contains (String sep EmptyString) s' then after_last sep s'
      else if decide (c = sep) then s' else s
  end.

Fixpoint before_last (sep : Ascii.ascii) (s : string) : option string :=
  match s with
  | EmptyString => None
  | String c s' =>
      match before_last sep s' with
      | Some p => Some (String c p)
      | None => if decide (c = sep) then Some EmptyString else None
      end
  end.

(** [PurePath.stem]: the final component without its last suffix. *)
Definition stem (path : string) : string :=
  let name := after_last "/"%char path in
  match before_last "."%char name with
  | Some p =>
      if decide (p = EmptyString) then name
      else if decide (String.length p + 1 = String.length name) then name
      else p
  | None => name
  end.

Section WithArrays.
Context {Array : Type} `{ArrayOps Array}.

(** The files: path to content. *)
Definition FS : Type := gmap string (content Array).

(** A command: reads and writes the files, prints and calls the models,
    and returns or raises. *)
Definition Cmd (A : Type) : Type := FS → list event * res A * FS.

#[global] Instance cmd_ret : MRet Cmd := λ A a fs, ([], Ok a, fs).
#[global] Instance cmd_bind : MBind Cmd := λ A B f m fs,
  match m fs with
  | (l, Ok a, fs') => let '(l', r, fs'') := f a fs' in (l ++ l', r, fs'')
  | (l, Raise e, fs') => (l, Raise e, fs')
  end.

Definition print (m : message) : Cmd unit := λ fs, ([Print m], Ok tt, fs).
Definition raise_res {A} (r : res A) : Cmd A := λ fs, ([], r, fs).
Definition path_exists (file : string) : Cmd bool :=
  λ fs, ([], Ok (bool_decide (is_Some (fs !! file))), fs).

(** [tifffile.imread] *)
Definition imread (file : string) : Cmd Array := λ fs,
  ([], match fs !! file with
       | Some (Tiff a) => Ok a
       | Some _ => Raise TiffFileError
       | None => Raise FileNotFoundError
       end, fs).

(** [pd.read_csv(file, index_col=0, squeeze=True)]; a file that is not
    text makes pandas raise a [ValueError] (decoding or parsing). *)
Definition read_channel_labels (file : string) : Cmd (list string) := λ fs,
  ([], match fs !! file with
       | Some (Labels l) => Ok l
       | Some _ => Raise ValueError
       | None => Raise FileNotFoundError
       end, fs).

(** [tifffile.imwrite] and [fig.savefig] *)
Definition imwrite (file : string) (a : Array) : Cmd unit := λ fs,
  ([WriteMask file], Ok tt, <[file := Tiff a]> fs).
Definition savefig (file : string) : Cmd unit := λ fs,
  ([WriteFigure file], Ok tt, <[file := Figure]> fs).

(** [for ch in ...split(","): exc.loc[exc.index.str.contains(ch)] = True] *)
Definition exclude_channels (channel_labels : list string)
    (patterns : list string) (exc : list bool) : list bool :=
  foldl (λ exc ch,
           zip_with (λ label e, if contains ch label then true else e)
                    channel_labels exc)
        exc patterns.

(** The first loop of [main]: "Prepare mock ROI objects".  [fill] is the
    value with which [pd.Series(index=..., dtype=bool)] starts out. *)
Fixpoint prepare_rois (fill : bool) (args : Args) (todo : list string)
    (rois : list ROI_mock) : Cmd (list ROI_mock) :=
  match todo with
  | [] => mret rois
  | tiff :: todo =>
      let channel_labels_file := replace ".tiff" ".csv" tiff in
      present ← path_exists channel_labels_file;
      if negb present then
        _ ← print (MissingLabels tiff);
        prepare_rois fill args todo rois
      else
        let roi := {| stack_file := tiff;
                      channel_labels_file := channel_labels_file;
                      roi_exclude := None;
                      name := replace "_full" EmptyString (stem tiff) |} in
        channel_labels ← read_channel_labels (channel_labels_file);
        let exc := map (λ _, fill) channel_labels in
        let exc :=
          if decide (channel_exclude args = EmptyString) then exc
          else exclude_channels channel_labels
                 (split_on ","%char (channel_exclude args)) exc in
        let roi := {| stack_file := stack_file roi;
                      channel_labels_file := channel_labels_file;
                      roi_exclude := Some exc;
                      name := name roi |} in
        prepare_rois fill args todo (rois ++ [roi])
  end.

(** The mock ROI as [segment_roi] sees it, on the files as they are. *)
Definition as_roi (fs : FS) (roi : ROI_mock) : ROI Array := {|
  roi_stack := (imread (stack_file roi) fs).1.2;
  roi_channel_labels := (read_channel_labels (channel_labels_file roi) fs).1.2;
  roi_channel_exclude := roi_exclude roi;
  roi_get_input_filename := λ _, Raise AttributeError;
  roi_path_exists := λ file, bool_decide (is_Some (fs !! file));
|}.

Definition call_segment_roi (roi : ROI_mock) (args : Args) : Cmd Array :=
  λ fs,
    let '(l, r) := segment_roi (as_roi fs roi) (model args)
                     (compartment args) false (overwrite args) (plot args) in
    (map Seg l, r, fs).

(** The body of the second loop of [main]: "Run segmentation". *)
Definition segment_one (args : Args) (roi : ROI_mock) : Cmd unit :=
  stack ← imread (stack_file roi);
  _ ← print (Started (name roi) (shape stack));
  mask ← call_segment_roi roi args;
  _ ← (if save args then
         let add := if decide (compartment args = "nuclear") then "nuc"
                    else EmptyString in
         let mask_file :=
           replace ".tiff"
             ("_" +:+ add +:+ "mask" +:+ output_mask_suffix args +:+ ".tiff")
             (stack_file roi) in
         present ← path_exists mask_file;
         _ ← (if overwrite args || negb present
              then imwrite mask_file mask else mret tt);
         if plot args then
           let fig_file :=
             replace "_full.tiff"
               ("_segmentation_" +:+ model args +:+ "_"
                  +:+ compartment args +:+ ".svg")
               (stack_file roi) in
           present ← path_exists fig_file;
           if overwrite args || (negb (overwrite args) && negb present)
           then _ ← print (FigureFile fig_file); savefig fig_file
           else mret tt
         else mret tt
       else mret tt);
  print (Finished (name roi)).

Fixpoint segment_rois (args : Args) (rois : list ROI_mock) : Cmd unit :=
  match rois with
  | [] => mret tt
  | roi :: rois => _ ← segment_one args roi; segment_rois args rois
  end.

Definition main (fill : bool) (args : Args) : Cmd Z :=
  _ ← print (Starting (length (tiffs args)) (tiffs args));
  rois ← prepare_rois fill args (tiffs args) [];
  _ ← segment_rois args rois;
  _ ← print FinishedAll;
  mret 0%Z.


Definition has_labels (fs : FS) (tiff : string) : bool :=
  bool_decide (is_Some (fs !! replace ".tiff" ".csv" tiff)).


End WithArrays.
Arguments FS : clear implicits.





(** A pattern that [str.contains] reads as plain text: none of its
    characters is special in a regular expression. *)
Definition regex_special : list Ascii.ascii :=
  String.list_ascii_of_string ".^$*+?{}[]\|()".

Definition plain_text (pattern : string) : Prop :=
  Forall (λ c, c ∉ regex_special) (String.list_ascii_of_string pattern).

(** Two stacks on the command line; only the first has its channel
    labels next to it. *)
Definition example_args : Args := {|
  tiffs := ["s1/tiffs/roi1_full.tiff"; "s1/tiffs/roi2_full.tiff"];
  model := "stardist";
  compartment := "nuclear";
  channel_exclude := EmptyString;
  output_mask_suffix := EmptyString;
  save := true;
  overwrite := false;
  plot := false;
|}.

Definition example_files : FS Symbolic.sym :=
  <["s1/tiffs/roi1_full.tiff" := Tiff Symbolic.example_stack]>
    (<["s1/tiffs/roi1_full.csv" := Labels Symbolic.example_labels]>
       (<["s1/tiffs/roi2_full.tiff" := Tiff Symbolic.example_stack]> ∅)).



(** The files of the first example, with a figure where the channel
    labels of the first stack should be. *)
Definition unreadable_files : FS Symbolic.sym :=
  <["s1/tiffs/roi1_full.csv" := Figure]> example_files.

(** The same command line with [--no-save], and with [--overwrite] for
    a stack that is not named [*_full.tiff]. *)
Definition dry_run_args : Args := {|
  tiffs := ["s1/tiffs/roi1_full.tiff"; "s1/tiffs/roi2_full.tiff"];
  model := "stardist";
  compartment := "nuclear";
  channel_exclude := EmptyString;
  output_mask_suffix := EmptyString;
  save := false;
  overwrite := false;
  plot := false;
|}.

Definition overwriting_args : Args := {|
  tiffs := ["s1/tiffs/roi3.tiff"];
  model := "stardist";
  compartment := "nuclear";
  channel_exclude := EmptyString;
  output_mask_suffix := EmptyString;
  save := true;
  overwrite := true;
  plot := true;
|}.

Definition plain_roi : ROI_mock := {|
  stack_file := "s1/tiffs/roi3.tiff";
  channel_labels_file := "s1/tiffs/roi3.csv";
  roi_exclude := Some [false; false];
  name := "roi3";
|}.

Definition plain_files : FS Symbolic.sym :=
  <["s1/tiffs/roi3.tiff" := Tiff Symbolic.example_stack]>
    (<["s1/tiffs/roi3.csv" := Labels Symbolic.example_labels]> ∅).

End SegmentStacks.

(** ** pandas: values, series, frames and the CSV reader and writer

    Only what [project.py] uses.  A CSV file is kept as its header and its
    records of field texts: the quoting that the writer adds around a field
    and that the reader takes off again is below this model, and so is a
    field with a bare carriage return, which the writer does not quote and
    the reader takes for the end of a record.  The reader is the one of
    a file that pandas parses in one piece: the type of a column is
    inferred from all of its fields. *)

Module Pandas.

(** The scalars that sit in a column.  A float is kept as the literal it
    was read from. *)
Inductive value : Set :=
| VStr (s : string)
| VInt (z : Z)
| VFloat (literal : string)
| VBool (b : bool)
| VNaN.

#[global] Instance value_eq_dec : EqDecision value.
Proof. solve_decision. Defined.

Definition render_int (z : Z) : string :=
  NilZero.string_of_int (Z.to_int z).

(** [str(v)] *)
Definition py_str (v : value) : string :=
  match v with
  | VStr s => s
  | VInt z => render_int z
  | VFloat literal => literal
  | VBool true => "True"
  | VBool false => "False"
  | VNaN => "nan"
  end.

(** A field as [to_csv] writes it: missing values become the empty
    field ([na_rep='']). *)
Definition render (v : value) : string :=
  match v with
  | VNaN => EmptyString
  | _ => py_str v
  end.

(** *** Reading a field back *)

(** The texts that [read_csv] takes for a missing value. *)
Definition na_values : list string :=
  [EmptyString; "#N/A"; "#N/A N/A"; "#NA"; "-1.#IND"; "-1.#QNAN"; "-NaN"; "-nan";
   "1.#IND"; "1.#QNAN"; "<NA>"; "N/A"; "NA"; "NULL"; "NaN"; "n/a"; "nan";
   "null"].

Definition is_na (s : string) : bool := bool_decide (s ∈ na_values).

Definition is_space (c : ascii) : bool :=
  bool_decide (c = " "%char) || bool_decide (c = "009"%char).

Fixpoint lstrip (s : string) : string :=
  match s with
  | String c s' => if is_space c then lstrip s' else s
  | EmptyString => EmptyString
  end.

Fixpoint rstrip (s : string) : string :=
  match s with
  | String c s' =>
      match rstrip s' with
      | EmptyString => if is_space c then EmptyString
                       else String c EmptyString
      | r => String c r
      end
  | EmptyString => EmptyString
  end.

Definition strip (s : string) : string := rstrip (lstrip s).

Definition is_digit (c : ascii) : bool :=
  (48 <=? nat_of_ascii c) && (nat_of_ascii c <=? 57).

Definition starts_with_digit (s : string) : bool :=
  match s with
  | String c _ => is_digit c
  | EmptyString => false
  end.

Fixpoint drop_digits (s : string) : string :=
  match s with
  | String c s' => if is_digit c then drop_digits s' else s
  | EmptyString => EmptyString
  end.

Definition drop_sign (s : string) : string :=
  match s with
  | String c s' =>
      if bool_decide (c = "+"%char) || bool_decide (c = "-"%char)
      then s' else s
  | EmptyString => EmptyString
  end.

(** A leading plus sign is taken off, unless another sign follows. *)
Definition drop_plus (s : string) : string :=
  match s with
  | String "+" (String c s') =>
      if bool_decide (c = "+"%char) || bool_decide (c = "-"%char)
      then s else String c s'
  | _ => s
  end.

(** An integer literal: digits with an optional sign, first as Python
    writes them, then in the forms that the tokenizer also takes
    (blanks around the number, a plus sign). *)
Definition int_literal (s : string) : option Z :=
  match NilZero.int_of_string s with
  | Some d => Some (Z.of_int d)
  | None => Z.of_int <$> NilZero.int_of_string (drop_plus (strip s))
  end.

Definition in_int64 (z : Z) : bool :=
  ((- 2 ^ 63 <=? z) && (z <? 2 ^ 63))%Z.

Definition int64_literal (s : string) : option Z :=
  z ← int_literal s; if in_int64 z then Some z else None.

(** [digits [. digits]] with at least one digit; returns what follows. *)
Definition scan_mantissa (s : string) : option string :=
  let rest := drop_digits s in
  match rest with
  | String "." frac =>
      if starts_with_digit s || starts_with_digit frac
      then Some (drop_digits frac) else None
  | _ => if starts_with_digit s then Some rest else None
  end.

(** [[eE] [+-] digits], if any; returns what follows. *)
Definition scan_exponent (s : string) : option string :=
  match s with
  | String c s' =>
      if bool_decide (c = "e"%char) || bool_decide (c = "E"%char) then
        if starts_with_digit (drop_sign s')
        then Some (drop_digits (drop_sign s')) else None
      else Some s
  | EmptyString => Some EmptyString
  end.

Definition lower_char (c : ascii) : ascii :=
  let n := nat_of_ascii c in
  if (65 <=? n) && (n <=? 90) then ascii_of_nat (n + 32) else c.

Fixpoint lower (s : string) : string :=
  match s with
  | String c s' => String (lower_char c) (lower s')
  | EmptyString => EmptyString
  end.

Definition float_literal (s : string) : bool :=
  let s := strip s in
  match scan_mantissa (drop_sign s) ≫= scan_exponent with
  | Some EmptyString => true
  | _ => bool_decide (lower (drop_sign s) ∈ ["inf"; "infinity"])
  end.

Definition bool_literal (s : string) : option bool :=
  if bool_decide (s ∈ ["True"; "TRUE"; "true"]) then Some true
  else if bool_decide (s ∈ ["False"; "FALSE"; "false"]) then Some false
  else None.

(** A column read with [dtype=str]. *)
Definition as_object (s : string) : value :=
  if is_na s then VNaN else VStr s.

Definition as_float (s : string) : value :=
  if is_na s then VNaN else VFloat (strip s).

Definition as_bool (s : string) : value :=
  match bool_literal s with
  | Some b => VBool b
  | None => VNaN
  end.

(** A column read without a [dtype]: integers if every field is one,
    else floats if every field is a number or missing, else booleans if
    every field is one or missing, else the texts themselves. *)
Definition infer_column (cells : list string) : list value :=
  if forallb (λ c, bool_decide (is_Some (int64_literal c))) cells then
    map (λ c, VInt (default 0%Z (int64_literal c))) cells
  else if forallb (λ c, is_na c || float_literal c) cells then
    map as_float cells
  else if forallb (λ c, is_na c || bool_decide (is_Some (bool_literal c)))
            cells then
    map as_bool cells
  else map as_object cells.

(** *** Series and frames *)

Inductive index : Set :=
| Index (name : option string) (labels : list value)
| MultiIndex (names : list (option string)) (keys : list (list value)).

#[global] Instance index_eq_dec : EqDecision index.
Proof. solve_decision. Defined.

Record Series := {
  s_index : index;
  s_values : list value;
  s_name : option string;
}.

#[global] Instance Series_eq_dec : EqDecision Series.
Proof. solve_decision. Defined.

(** A frame with the default [RangeIndex]: its columns, in order. *)
Definition DataFrame : Type := list (string * list value).

Definition nrows (df : DataFrame) : nat :=
  match df with
  | [] => 0
  | (_, column) :: _ => length column
  end.

(** [df[name]] *)
Fixpoint column (name : string) (df : DataFrame) : res (list value) :=
  match df with
  | [] => Raise KeyError
  | (n, c) :: df' => if decide (n = name) then Ok c else column name df'
  end.

(** The names under which [reset_index] inserts the index levels. *)
Definition level_names (idx : index) (s_name : option string) : list string :=
  match idx with
  | Index name _ =>
      [default (if decide (s_name = Some "index") then "level_0"
                else "index") name]
  | MultiIndex names _ =>
      imap (λ i name, default ("level_" +:+ render_int (Z.of_nat i)) name)
           names
  end.

(** The values of level [j] of the keys of a [MultiIndex]. *)
Definition level (j : nat) (keys : list (list value)) : list value :=
  map (λ key, nth j key VNaN) keys.

Definition level_columns (idx : index) : list (list value) :=
  match idx with
  | Index _ labels => [labels]
  | MultiIndex names keys => imap (λ i _, level i keys) names
  end.

(** [s.reset_index()]: a level whose name is already a column cannot be
    inserted. *)
Definition reset_index (s : Series) : res DataFrame :=
  let value_name := default "0" (s_name s) in
  let names := level_names (s_index s) (s_name s) in
  if bool_decide (NoDup (names ++ [value_name])) then
    Ok (zip names (level_columns (s_index s)) ++ [(value_name, s_values s)])
  else Raise ValueError.

(** [s.astype(str)] *)
Definition astype_str (s : Series) : Series :=
  {| s_index := s_index s;
     s_values := map (λ v, VStr (py_str v)) (s_values s);
     s_name := s_name s |}.

(** *** CSV *)

Record csv := {
  header : list string;
  records : list (list string);
}.

(** [df.to_csv(file, index=False)] *)
Definition to_csv (df : DataFrame) : csv :=
  {| header := map fst df;
     records := map (λ i, map (λ c, render (nth i (snd c) VNaN)) df)
                    (seq 0 (nrows df)) |}.

Definition read_column (str_columns : list string) (file : csv)
    (j : nat) (name : string) : string * list value :=
  let cells := map (λ record, nth j record EmptyString) (records file) in
  (name, if bool_decide (name ∈ str_columns) then map as_object cells
         else infer_column cells).

(** [pd.read_csv(file, dtype={c: str for c in str_columns})]; a file
    without columns is refused. *)
Definition read_csv (str_columns : list string) (file : csv) : res DataFrame :=
  match header file with
  | [] => Raise ValueError
  | names => Ok (imap (read_column str_columns file) names)
  end.

(** [df.set_index(keys)[name]] *)
Definition set_index_getitem (keys : list string) (name : string)
    (df : DataFrame) : res Series :=
  levels ← mapM (λ k, column k df) keys;
  values ← (if bool_decide (name ∈ keys) then Raise KeyError
            else column name df);
  Ok {| s_index :=
          MultiIndex (map Some keys)
            (map (λ i, map (λ level, nth i level VNaN) levels)
                 (seq 0 (nrows df)));
        s_values := values;
        s_name := Some name |}.

(** [clusters.loc[label]] on the first level of a [MultiIndex]; the
    selected rows lose that level.  ([set_clusters] gets here only with a
    [MultiIndex]; a label of a flat index is not looked up.) *)
Definition loc_first_level (label : value) (s : Series) : res Series :=
  match s_index s with
  | MultiIndex names keys =>
      let rows := List.filter (λ row, bool_decide (hd VNaN row.1 = label))
                              (zip keys (s_values s)) in
      if bool_decide (rows = []) then Raise KeyError
      else Ok {| s_index := MultiIndex (tail names) (map (λ r, tail r.1) rows);
                 s_values := map snd rows;
                 s_name := s_name s |}
  | Index _ _ => Raise KeyError
  end.

End Pandas.

(** ** imc/data_models/project.py *)

Module Project.
Import Pandas.

(** *** Paths and the file system *)

(** An absolute path, as its parts. *)
Definition Path : Type := list string.

(** [base / s]: the string is cut at its slashes, and replaces [base]
    when it is absolute. *)
Definition path_parts (s : string) : list string :=
  List.filter (λ part, negb (bool_decide (part = EmptyString))
                       && negb (bool_decide (part = ".")))
              (split_on "/"%char s).

Definition path_div (base : Path) (s : string) : Path :=
  if String.prefix "/" s then path_parts s else base ++ path_parts s.

(** [p.parent] *)
Definition parent (p : Path) : Path := removelast p.

(** The directories other than the root, and the CSV files. *)
Record FS := {
  dirs : gset (list string);
  files : gmap (list string) csv;
}.

Definition is_dir (fs : FS) (p : Path) : bool :=
  bool_decide (p = [] ∨ p ∈ dirs fs).

Definition is_file (fs : FS) (p : Path) : bool :=
  bool_decide (is_Some (files fs !! p)).

Definition path_exists (fs : FS) (p : Path) : bool :=
  is_dir fs p || is_file fs p.

(** [p.mkdir()], that is [parents=False, exist_ok=False]. *)
Definition mkdir (p : Path) (fs : FS) : res FS :=
  if path_exists fs p then Raise FileExistsError
  else if is_dir fs (parent p) then
    Ok {| dirs := {[p]} ∪ dirs fs; files := files fs |}
  else if path_exists fs (parent p) then Raise NotADirectoryError
  else Raise FileNotFoundError.

(** [df.to_csv(p, index=False)] *)
Definition write_csv (p : Path) (file : csv) (fs : FS) : res FS :=
  if is_dir fs p then Raise IsADirectoryError
  else if is_dir fs (parent p) then
    Ok {| dirs := dirs fs; files := <[p := file]> (files fs) |}
  else if path_exists fs (parent p) then Raise NotADirectoryError
  else Raise FileNotFoundError.

Definition open_csv (p : Path) (fs : FS) : res csv :=
  match files fs !! p with
  | Some file => Ok file
  | None => if is_dir fs p then Raise IsADirectoryError
            else Raise FileNotFoundError
  end.

(** *** Samples and ROIs

    [imc/data_models/sample.py] and [roi.py] are not among these sources:
    what [project.py] does with a sample or a ROI goes through the
    interface [SampleClass]. *)

(** The arguments with which [IMCSample(...)] is called ([prj] is the
    project itself). *)
Record SampleArgs := {
  arg_sample_name : value;
  arg_root_dir : Path;
  arg_subfolder_per_sample : bool;
  arg_metadata : option DataFrame;
  arg_panel_metadata : option DataFrame;
  arg_kwargs : gmap string value;
}.

Class SampleClass (Sample ROI : Type) := {
  (** [IMCSample(sample_name=..., root_dir=..., ...)] *)
  IMCSample : SampleArgs → Sample;
  (** [sample.name], [sample.rois], [roi.name] *)
  sample_name : Sample → string;
  sample_rois : Sample → list ROI;
  roi_name : ROI → string;
  (** [sample.set_clusters(clusters=...)] *)
  sample_set_clusters : Sample → Series → res unit;
}.

Definition DEFAULT_PROJECT_NAME : string := "project".
Definition DEFAULT_SAMPLE_NAME_ATTRIBUTE : string := "sample_name".
Definition DEFAULT_SAMPLE_GROUPING_ATTRIBUTEs : list string :=
  [DEFAULT_SAMPLE_NAME_ATTRIBUTE].
Definition DEFAULT_TOGGLE_ATTRIBUTE : string := "toggle".
Definition DEFAULT_PRJ_SINGLE_CELL_DIR : string := "single_cell".

Record Project (Sample : Type) := {
  name : string;
  metadata : option DataFrame;
  samples : list Sample;
  sample_name_attribute : string;
  sample_grouping_attributes : list string;
  panel_metadata : option DataFrame;
  toggle : bool;
  subfolder_per_sample : bool;
  processed_dir : Path;
  results_dir : Path;
  quantification : option DataFrame;
  _clusters : option Series;
}.
Arguments name {Sample} _.
Arguments metadata {Sample} _.
Arguments samples {Sample} _.
Arguments sample_name_attribute {Sample} _.
Arguments sample_grouping_attributes {Sample} _.
Arguments panel_metadata {Sample} _.
Arguments toggle {Sample} _.
Arguments subfolder_per_sample {Sample} _.
Arguments processed_dir {Sample} _.
Arguments results_dir {Sample} _.
Arguments quantification {Sample} _.
Arguments _clusters {Sample} _.

(** What a method without a [return] on every path gives back. *)
Inductive returned (A : Type) : Type :=
| RNone
| ROne (a : A)
| RList (l : list A).
Arguments RNone {A}.
Arguments ROne {A} a.
Arguments RList {A} l.

(** [if isinstance(names, str): names = [names]] *)
Definition as_list (names : string + list string) : list string :=
  match names with
  | inl s => [s]
  | inr l => l
  end.

(** [a or b] on lists that may be [None]. *)
Definition list_or {A} (a : option (list A)) (b : list A) : list A :=
  match a with
  | Some (x :: l) => x :: l
  | _ => b
  end.

(** [column.unique()]: the distinct values in order of appearance. *)
Fixpoint unique_from {A} `{EqDecision A} (seen l : list A) : list A :=
  match l with
  | [] => []
  | x :: l' =>
      if decide (x ∈ seen) then unique_from seen l'
      else x :: unique_from (x :: seen) l'
  end.
Definition unique {A} `{EqDecision A} (l : list A) : list A :=
  unique_from [] l.

(** *** Grouping the metadata *)

Definition df_empty (df : DataFrame) : bool :=
  bool_decide (df = []) || bool_decide (nrows df = 0).

Definition df_columns (df : DataFrame) : list string := map fst df.

(** [df.loc[idx]] on a frame whose row labels are the positions. *)
Definition loc_rows (idx : list nat) (df : DataFrame) : DataFrame :=
  map (λ c, (c.1, map (λ i, nth i c.2 VNaN) idx)) df.

(** [df[mask]] for a column [mask] of booleans; anything else in the
    mask is refused. *)
Definition as_mask (mask : list value) : res (list bool) :=
  mapM (λ v, match v with
             | VBool b => Ok b
             | VNaN => Raise ValueError
             | _ => Raise KeyError
             end) mask.

Definition positions (mask : list bool) : list nat :=
  select (seq 0 (length mask)) mask.

(** The key of each row under [df.groupby(by)]. *)
Definition group_keys (by_ : list string) (df : DataFrame)
  : res (list (list value)) :=
  levels ← mapM (λ k, column k df) by_;
  Ok (map (λ i, map (λ level, nth i level VNaN) levels) (seq 0 (nrows df))).

Fixpoint add_to_group (key : list value) (i : nat)
    (groups : list (list value * list nat)) : list (list value * list nat) :=
  match groups with
  | [] => [(key, [i])]
  | (k, idx) :: groups' =>
      if decide (k = key) then (k, idx ++ [i]) :: groups'
      else (k, idx) :: add_to_group key i groups'
  end.

(** [df.groupby([a], sort=False).groups.items()], for one grouping
    attribute: the groups in order of first appearance, each with the
    labels of its rows; a row with a missing value in its key belongs to no
    group. *)
Definition groups_of (keys : list (list value))
  : list (list value * list nat) :=
  foldl (λ groups ik,
           if bool_decide (VNaN ∈ ik.2) then groups
           else add_to_group ik.2 ik.1 groups)
        [] (imap pair keys).

(** With several grouping attributes pandas builds [.groups] from the
    tuples of values, along another path than for one attribute; the order
    of that dictionary and its treatment of missing values are left to this
    interface. *)
Class GroupsOfTuples :=
  groups_of_tuples : list (list value) → list (list value * list nat).

(** [df.groupby(by, sort=False).groups.items()] *)
Definition groupby_groups `{GroupsOfTuples} (by_ : list string)
    (keys : list (list value)) : res (list (list value * list nat)) :=
  match by_ with
  | [] => Raise ValueError
  | [_] => Ok (groups_of keys)
  | _ => Ok (groups_of_tuples keys)
  end.

(** [{col for col in dfs if len(dfs[col].unique()) == 1}], with the one
    value of each such column: [rows[const_cols].drop_duplicates()
    .squeeze(axis=0)] as a dictionary. *)
Definition const_row (rows : DataFrame) : gmap string value :=
  list_to_map
    (omap (λ c, match unique c.2 with
                | [v] => Some (c.1, v)
                | _ => None
                end) rows).

(** The keywords that the call of [IMCSample] names itself. *)
Definition sample_keywords : list string :=
  ["sample_name"; "root_dir"; "subfolder_per_sample"; "metadata";
   "panel_metadata"; "prj"].

(** The two expressions that take a series of cluster assignments to the
    CSV file and back: [clusters.reset_index().to_csv(fn, index=False)]
    in [cluster_cells], and [pd.read_csv(fn, dtype={"sample": str,
    "roi": str}).set_index(id_cols)["cluster"]] in [set_clusters]. *)
Definition write_clusters (clusters : Series) : res csv :=
  df ← reset_index clusters; Ok (to_csv df).

Definition id_cols : list string := ["sample"; "roi"; "obj_id"].

Definition read_clusters (file : csv) : res Series :=
  df ← read_csv ["sample"; "roi"] file;
  set_index_getitem id_cols "cluster" df.

(** No keyword is passed twice in [IMCSample(sample_name=..., ...,
    **kwargs, **extra)]. *)
Definition keywords_distinct (kwargs extra : gmap string value) : bool :=
  bool_decide ((dom kwargs : gset string) ## dom extra)
  && forallb (λ k, bool_decide (k ∉ (dom kwargs : gset string) ∪ dom extra))
             sample_keywords.
#[global] Arguments keywords_distinct : simpl never.

Section WithSamples.
Context {Sample ROI : Type} {Samples : SampleClass Sample ROI}
        {Tuples : GroupsOfTuples}.

(** The body of the loop of [_initialize_project_from_annotation]. *)
Definition sample_of_group (self : Project Sample) (df : DataFrame)
    (kwargs : gmap string value) (idx : list nat) : res Sample :=
  let rows := loc_rows idx df in
  let row := const_row rows in
  sample_name ← from_option Ok (Raise KeyError)
                  (row !! (sample_name_attribute self));
  let extra := delete "sample_name" row in
  (* a keyword given twice is a TypeError *)
  _ ← (if keywords_distinct kwargs extra then Ok tt else Raise TypeError);
  Ok (IMCSample {|
        arg_sample_name := sample_name;
        arg_root_dir :=
          if subfolder_per_sample self
          then path_div (processed_dir self) (py_str sample_name)
          else processed_dir self;
        arg_subfolder_per_sample := subfolder_per_sample self;
        arg_metadata := if decide (1 < nrows rows) then Some rows else None;
        arg_panel_metadata := panel_metadata self;
        arg_kwargs := kwargs ∪ extra |}).

(** [metadata[metadata["toggle"]]], when toggling is on and the table has
    the column. *)
Definition kept_rows (self : Project Sample) (df : DataFrame)
    (toggle : option bool) : res DataFrame :=
  if (default false toggle || Project.toggle self)
     && bool_decide ("toggle" ∈ df_columns df)
  then
    flags ← column DEFAULT_TOGGLE_ATTRIBUTE df;
    mask ← as_mask flags;
    Ok (loc_rows (positions mask) df)
  else Ok df.

(** [sample_grouping_attributes or self.sample_grouping_attributes or
    metadata.columns.tolist()] *)
Definition grouping_attributes (self : Project Sample)
    (sample_grouping_attributes : option (list string)) (df : DataFrame)
  : list string :=
  list_or sample_grouping_attributes
    (list_or (Some (Project.sample_grouping_attributes self)) (df_columns df)).

(** [self._initialize_project_from_annotation(toggle,
    sample_grouping_attributes, **kwargs)]; [detected] is what
    [self._detect_samples()] finds in the processed directory.  Returns
    [self.samples] as the loop leaves it. *)
Definition _initialize_project_from_annotation (self : Project Sample)
    (detected : DataFrame) (toggle : option bool)
    (sample_grouping_attributes : option (list string))
    (kwargs : gmap string value) : res (list Sample) :=
  let df := default detected (metadata self) in
  if df_empty df then Ok (samples self) else
  df ← kept_rows self df toggle;
  let sample_grouping_attributes :=
    grouping_attributes self sample_grouping_attributes df in
  keys ← group_keys sample_grouping_attributes df;
  groups ← groupby_groups sample_grouping_attributes keys;
  new ← mapM (λ g, sample_of_group self df kwargs g.2) groups;
  Ok (samples self ++ new).

(** [Project(metadata, name, ...)] on a file system.  [metadata] and
    [panel_metadata] are the tables, read already when a path was given.
    The keyword arguments [toggle] and [sample_grouping_attributes] that
    [**kwargs] may carry on to [_initialize_project_from_annotation]
    are [init_toggle] and [init_grouping]. *)
Definition init (metadata : option DataFrame) (name : string)
    (sample_name_attribute : string)
    (sample_grouping_attributes : option (list string))
    (panel_metadata : option DataFrame) (toggle : bool)
    (subfolder_per_sample : bool) (processed_dir results_dir : Path)
    (detected : DataFrame) (init_toggle : option bool)
    (init_grouping : option (list string)) (kwargs : gmap string value)
    (fs : FS) : res (Project Sample) * FS :=
  let self := {|
    name := name;
    metadata := metadata;
    samples := [];
    sample_name_attribute := sample_name_attribute;
    sample_grouping_attributes :=
      list_or sample_grouping_attributes DEFAULT_SAMPLE_GROUPING_ATTRIBUTEs;
    panel_metadata := panel_metadata;
    toggle := toggle;
    subfolder_per_sample := subfolder_per_sample;
    processed_dir := processed_dir;
    results_dir := results_dir;
    quantification := None;
    _clusters := None |} in
  match mkdir results_dir fs with
  | Raise e => (Raise e, fs)
  | Ok fs =>
      match _initialize_project_from_annotation self detected init_toggle
              init_grouping kwargs with
      | Raise e => (Raise e, fs)
      | Ok samples =>
          (Ok {| name := name;
                 metadata := metadata;
                 samples := samples;
                 sample_name_attribute := sample_name_attribute;
                 sample_grouping_attributes :=
                   Project.sample_grouping_attributes self;
                 panel_metadata := panel_metadata;
                 toggle := toggle;
                 subfolder_per_sample := subfolder_per_sample;
                 processed_dir := processed_dir;
                 results_dir := results_dir;
                 quantification := None;
                 _clusters := None |}, fs)
      end
  end.

(** [self.rois] *)
Definition rois (self : Project Sample) : list ROI :=
  concat (map sample_rois (samples self)).

(** [self._get_input_filename("cell_cluster_assignments")] *)
Definition cluster_assignments_file (self : Project Sample) : Path :=
  path_div (path_div (results_dir self) DEFAULT_PRJ_SINGLE_CELL_DIR)
           (name self +:+ ".single_cell.cluster_assignments.csv").

(** [get_samples] and [get_rois]: when nothing matches, the
    [ValueError] of the [else] branch is built and dropped, and the
    method falls off its end. *)
Definition get_samples (self : Project Sample)
    (sample_names : string + list string) : res (returned Sample) :=
  let sample_names := as_list sample_names in
  let samples :=
    List.filter (λ s, bool_decide (sample_name s ∈ sample_names))
                (samples self) in
  match samples with
  | [] => Ok RNone
  | [s] => Ok (ROne s)
  | _ => Ok (RList samples)
  end.

Definition get_rois (self : Project Sample)
    (roi_names : string + list string) : res (returned ROI) :=
  let roi_names := as_list roi_names in
  let rois :=
    List.filter (λ r, bool_decide (roi_name r ∈ roi_names)) (rois self) in
  match rois with
  | [] => Ok RNone
  | [r] => Ok (ROne r)
  | _ => Ok (RList rois)
  end.

(** *** Methods that change the project or the files *)

Definition Method (A : Type) : Type :=
  Project Sample * FS → res A * (Project Sample * FS).

#[global] Instance method_ret : MRet Method := λ A a st, (Ok a, st).
#[global] Instance method_bind : MBind Method := λ A B f m st,
  match m st with
  | (Ok a, st') => f a st'
  | (Raise e, st') => (Raise e, st')
  end.

Definition lift {A} (r : res A) : Method A := λ st, (r, st).
Definition self : Method (Project Sample) := λ st, (Ok st.1, st).
Definition on_files (f : FS → res FS) : Method unit := λ st,
  match f st.2 with
  | Ok fs => (Ok tt, (st.1, fs))
  | Raise e => (Raise e, st)
  end.
(** [self._clusters = clusters] *)
Definition with_clusters (prj : Project Sample) (clusters : Series)
  : Project Sample :=
  {| name := name prj;
     metadata := metadata prj;
     samples := samples prj;
     sample_name_attribute := sample_name_attribute prj;
     sample_grouping_attributes := sample_grouping_attributes prj;
     panel_metadata := panel_metadata prj;
     toggle := toggle prj;
     subfolder_per_sample := subfolder_per_sample prj;
     processed_dir := processed_dir prj;
     results_dir := results_dir prj;
     quantification := quantification prj;
     _clusters := Some clusters |}.
Definition set__clusters (clusters : Series) : Method unit := λ st,
  (Ok tt, (with_clusters st.1 clusters, st.2)).

(** [isinstance(clusters.index, pd.MultiIndex)] and
    [clusters.index.names == id_cols] *)
Definition is_MultiIndex (idx : index) : bool :=
  match idx with MultiIndex _ _ => true | Index _ _ => false end.
Definition index_names (idx : index) : list (option string) :=
  match idx with
  | MultiIndex names _ => names
  | Index name _ => [name]
  end.

Fixpoint propagate_clusters (clusters : Series) (todo : list Sample)
  : res unit :=
  match todo with
  | [] => Ok tt
  | sample :: todo =>
      part ← loc_first_level (VStr (sample_name sample)) clusters;
      _ ← sample_set_clusters sample part;
      propagate_clusters clusters todo
  end.

Definition set_clusters (clusters : option Series) (write_to_disk : bool)
    (samples : option (list Sample)) : Method unit :=
  prj ← self;
  let fn := cluster_assignments_file prj in
  _ ← on_files (mkdir (parent fn));
  clusters ←
    match clusters with
    | None =>
        λ st, (file ← open_csv fn st.2; read_clusters file, st)
    | Some clusters => mret clusters
    end;
  _ ← lift (assert (is_MultiIndex (s_index clusters)));
  _ ← lift (assert (bool_decide
                      (index_names (s_index clusters) = map Some id_cols)));
  _ ← set__clusters clusters;
  _ ← lift (propagate_clusters clusters
              (list_or samples (Project.samples prj)));
  if write_to_disk then
    file ← lift (write_clusters clusters);
    on_files (write_csv fn file)
  else mret tt.

(** [self.clusters] *)
Definition clusters : Method (option Series) :=
  prj ← self;
  match _clusters prj with
  | Some c => mret (Some c)
  | None =>
      _ ← set_clusters None false None;
      prj ← self;
      mret (_clusters prj)
  end.

(** [cluster_cells], from the point where [single_cell_analysis] has
    returned [clusters]. *)
Definition cluster_cells (clusters : Series) (set_attribute : bool)
  : Method (option Series) :=
  prj ← self;
  (* save clusters as CSV in default file *)
  file ← lift (write_clusters clusters);
  _ ← on_files (write_csv (cluster_assignments_file prj) file);
  if negb set_attribute then mret (Some clusters)
  else
    _ ← set_clusters (Some (astype_str clusters)) false None;
    mret None.

(** *** What the grouping gives *)

(** A key without a missing value. *)
Definition complete (key : list value) : bool :=
  negb (bool_decide (VNaN ∈ key)).

(** The rows with a given key. *)
Definition indices_of (key : list value) (keys : list (list value))
  : list nat :=
  positions (map (λ k, bool_decide (k = key)) keys).




(** The index that [set_clusters] asserts. *)
Definition conforming (clusters : Series) : Prop :=
  is_MultiIndex (s_index clusters) = true
  ∧ index_names (s_index clusters) = map Some id_cols.

(** A name without a slash. *)
Definition no_slash (s : string) : Prop := contains "/" s = false.

(** What [mkdir] of the directory of the cluster file does. *)
Definition mkdir_outcome (prj : Project Sample) (fs : FS) : res FS :=
  mkdir (parent (cluster_assignments_file prj)) fs.

End WithSamples.

(** *** Choosing ROIs, input files and the samples on disk *)

(** Every file lies in a directory. *)
Definition files_in_directories (fs : FS) : Prop :=
  ∀ p file, files fs !! p = Some file → is_dir fs (parent p) = true.

Section Selecting.
Context {Sample ROI : Type} {Samples : SampleClass Sample ROI}
        `{EqDecision ROI}.

(** [self._get_rois(samples, rois)] *)
Definition _get_rois (self : Project Sample) (samples : option (list Sample))
    (rois : option (list ROI)) : list ROI :=
  sample ← list_or samples (Project.samples self);
  List.filter (λ r, bool_decide (r ∈ list_or rois (sample_rois sample)))
              (sample_rois sample).

(** [to_read] of [_get_input_filename]. *)
Definition to_read : gmap string (string * string) :=
  <["h5ad" := (DEFAULT_PRJ_SINGLE_CELL_DIR, ".single_cell.processed.h5ad")]>
    (<["cell_cluster_assignments" :=
         (DEFAULT_PRJ_SINGLE_CELL_DIR,
          ".single_cell.cluster_assignments.csv")]> ∅).

(** [self._get_input_filename(input_type)]: an input type that is not a
    key of [to_read] is a KeyError. *)
Definition _get_input_filename (self : Project Sample) (input_type : string)
  : res Path :=
  '(dir_, suffix) ← from_option Ok (Raise KeyError) (to_read !! input_type);
  Ok (path_div (path_div (results_dir self) dir_) (name self +:+ suffix)).

End Selecting.

(** What [processed_dir] is on disk: nothing, something that is not a
    directory, or a directory with its entries in the order in which the
    operating system lists them, each with its name and [is_dir()]. *)
Inductive listing : Set :=
| Missing
| NotADirectory
| Entries (entries : list (string * bool)).

(** [str.endswith] *)
Fixpoint endswith (s suffix : string) : bool :=
  bool_decide (s = suffix)
  || match s with
     | EmptyString => false
     | String _ s' => endswith s' suffix
     end.

(** [Path.iterdir] as [imc.types] overrides it: nothing for a path that
    does not exist. *)
Definition iterdir (dir_ : listing) : res (list (string * bool)) :=
  match dir_ with
  | Missing => Ok []
  | NotADirectory => Raise NotADirectoryError
  | Entries entries => Ok entries
  end.

(** [Path.glob("*_full.tiff")] *)
Definition glob_full_tiff (dir_ : listing) : list string :=
  match dir_ with
  | Entries entries =>
      List.filter (λ n, endswith n "_full.tiff") (map fst entries)
  | _ => []
  end.

Section Detecting.
Context {Sample : Type}.

(** [content] of [_detect_samples]: the names of the sub-directories of
    [processed_dir], or of its entries named [*_full.tiff]. *)
Definition detected_content (self : Project Sample) (dir_ : listing)
  : res (list string) :=
  if subfolder_per_sample self then
    entries ← iterdir dir_;
    Ok (map fst (List.filter snd entries))
  else Ok (glob_full_tiff dir_).

(** [self._detect_samples()]; [processed_dir] is a path since
    [__init__]. *)
Definition _detect_samples (self : Project Sample) (dir_ : listing)
  : res DataFrame :=
  content ← detected_content self dir_;
  if decide (content = []) then Ok [("0", [])]
  else Ok [(DEFAULT_SAMPLE_NAME_ATTRIBUTE,
            map (λ x, VStr (replace "_full.tiff" EmptyString x)) content)].

End Detecting.

(** An instance of the interface for the examples, all of which group
    by one attribute and so never come to it. *)
Definition first_appearance : GroupsOfTuples := groups_of.

(** The least implementation of the sample interface: a sample is the
    arguments it was built from, and has no ROIs. *)
Definition plain_samples : SampleClass SampleArgs string := {|
  IMCSample := id;
  sample_name := λ s, py_str (arg_sample_name s);
  sample_rois := λ _, [];
  roi_name := id;
  sample_set_clusters := λ _ _, Ok tt;
|}.

(** Samples that are a name and the names of their ROIs. *)
Definition listed_samples : SampleClass (string * list string) string := {|
  IMCSample := λ args, (py_str (arg_sample_name args), []);
  sample_name := fst;
  sample_rois := snd;
  roi_name := id;
  sample_set_clusters := λ _ _, Ok tt;
|}.

Definition example_listed_project : Project (string * list string) := {|
  name := "project";
  metadata := None;
  samples := [("s1", ["s1-01"; "s1-02"]); ("s2", ["s2-01"])];
  sample_name_attribute := DEFAULT_SAMPLE_NAME_ATTRIBUTE;
  sample_grouping_attributes := DEFAULT_SAMPLE_GROUPING_ATTRIBUTEs;
  panel_metadata := None;
  toggle := true;
  subfolder_per_sample := true;
  processed_dir := ["data"; "processed"];
  results_dir := ["data"; "results"];
  quantification := None;
  _clusters := None |}.

(** A project without samples whose results directory holds
    [single_cell] already. *)
Definition example_project : Project SampleArgs := {|
  name := "project";
  metadata := None;
  samples := [];
  sample_name_attribute := DEFAULT_SAMPLE_NAME_ATTRIBUTE;
  sample_grouping_attributes := DEFAULT_SAMPLE_GROUPING_ATTRIBUTEs;
  panel_metadata := None;
  toggle := true;
  subfolder_per_sample := true;
  processed_dir := ["data"; "processed"];
  results_dir := ["data"; "results"];
  quantification := None;
  _clusters := None |}.




Definition example_fs : FS := {|
  dirs := {[ ["data"]; ["data"; "results"];
             ["data"; "results"; "single_cell"] ]};
  files := ∅ |}.

Definition fresh_fs : FS := {|
  dirs := {[ ["data"]; ["data"; "results"] ]};
  files := ∅ |}.

(** Cluster labels as [cluster_cells] hands them to [set_clusters]
    ([clusters.astype(str)]), and a series with a flat index. *)
Definition example_clusters : Series := {|
  s_index := MultiIndex [Some "sample"; Some "roi"; Some "obj_id"]
               [[VStr "s1"; VStr "roi1"; VInt 1];
                [VStr "s1"; VStr "roi1"; VInt 2]];
  s_values := [VStr "1"; VStr "2"];
  s_name := Some "cluster" |}.

Definition named_clusters : Series := {|
  s_index := MultiIndex [Some "sample"; Some "roi"; Some "obj_id"]
               [[VStr "s1"; VStr "roi1"; VInt 1];
                [VStr "s1"; VStr "roi1"; VInt 2]];
  s_values := [VStr "1 - T cells"; VStr "2"];
  s_name := Some "cluster" |}.

Definition flat_clusters : Series := {|
  s_index := Index (Some "obj_id") [VInt 1; VInt 2];
  s_values := [VStr "1"; VStr "2"];
  s_name := Some "cluster" |}.

End Project.

(** ** The testing loops of [Project.sample_comparisons] *)

Module Comparisons.

(** A row of [channel_df] (or of [cluster_df]): the channel (or the
    cluster), the value of each sample attribute, and the channel mean
    (or the cell count). *)
Record observation (F : Type) := {
  obs_key : string;
  obs_attribute : string → string;
  obs_value : F;
}.
Arguments obs_key {F} _.
Arguments obs_attribute {F} _ _.
Arguments obs_value {F} _.

(** The numbers ([float64]) and what the loops ask of pandas, numpy and
    scipy. *)
Class Stats (F : Type) := {
  nan : F;
  (** [df.query(f"channel == '{key}' & {attribute} == '{group}'")["value"]]
      (and the same with [cluster] and [cell_count]): the three names are
      pasted into the expression, which pandas parses and evaluates, or
      refuses with an exception *)
  query : list (observation F) → string → string → string → res (list F);
  (** [a.mean()] *)
  mean : list F → F;
  (** [np.log2(x / y)] *)
  log2_ratio : F → F → F;
  (** [scipy.stats.mannwhitneyu(a, b)] *)
  mannwhitneyu : list F → list F → res (F * F);
}.

(** A row of [_res]. *)
Record test_row (F : Type) := {
  attribute : string;
  key : string;
  group1 : string;
  group2 : string;
  mean1 : F;
  mean2 : F;
  log2_fold : F;
  stat : F;
  p_value : F;
}.
Arguments attribute {F} _.
Arguments key {F} _.
Arguments group1 {F} _.
Arguments group2 {F} _.
Arguments mean1 {F} _.
Arguments mean2 {F} _.
Arguments log2_fold {F} _.
Arguments stat {F} _.
Arguments p_value {F} _.


(** [try: r except ValueError: handler] *)
Definition except_ValueError {A} (r : res A) (handler : A) : res A :=
  match r with
  | Raise ValueError => Ok handler
  | _ => r
  end.


(** A name that can stand between the quotes of the expression as it
    is: printable ASCII without the quote and the backslash. *)
Definition quotable_char (c : ascii) : bool :=
  let n := nat_of_ascii c in
  (32 <=? n) && (n <=? 126) && negb (n =? 39) && negb (n =? 92).

Definition quotable (s : string) : bool :=
  forallb quotable_char (String.list_ascii_of_string s).

Definition letter (c : ascii) : bool :=
  let n := nat_of_ascii c in
  ((65 <=? n) && (n <=? 90)) || ((97 <=? n) && (n <=? 122)) || (n =? 95).

Definition python_keywords : list string :=
  ["False"; "None"; "True"; "and"; "as"; "assert"; "async"; "await";
   "break"; "class"; "continue"; "def"; "del"; "elif"; "else"; "except";
   "finally"; "for"; "from"; "global"; "if"; "import"; "in"; "is";
   "lambda"; "nonlocal"; "not"; "or"; "pass"; "raise"; "return"; "try";
   "while"; "with"; "yield"].

(** The columns of [channel_df] and [cluster_df] that are not sample
    attributes. *)
Definition frame_columns : list string :=
  ["channel"; "cluster"; "roi"; "sample"; "value"; "cell_count";
   "cell_perc"].

(** A sample attribute that can stand in the expression as it is: an
    identifier of letters, digits and underscores that is not a keyword,
    and not the name of another column. *)
Definition attribute_name (s : string) : bool :=
  match s with
  | EmptyString => false
  | String c s' =>
      letter c
      && forallb (λ c, letter c || Pandas.is_digit c)
                 (String.list_ascii_of_string s')
      && negb (bool_decide (s ∈ python_keywords ++ frame_columns))
  end.

(** The values of the rows with the given key and the given value of the
    attribute. *)
Definition selected {F} (df : list (observation F))
    (key attribute group : string) : list F :=
  map obs_value
    (List.filter (λ o, bool_decide (obs_key o = key)
                       && bool_decide (obs_attribute o attribute = group))
                 df).

Section WithStats.
Context {F : Type} `{Stats F}.

(** The body of the innermost loop; the two queries stand before the
    [try]. *)
Definition test_pair (df : list (observation F)) (attribute key : string)
    (groups : string * string) (_res : list (test_row F))
  : res (list (test_row F)) :=
  a ← query df key attribute groups.1;
  b ← query df key attribute groups.2;
  let am := mean a in
  let bm := mean b in
  mu ← except_ValueError (mannwhitneyu a b) (nan, nan);
  Ok (_res ++ [{| attribute := attribute; key := key;
                  group1 := groups.1; group2 := groups.2;
                  mean1 := am; mean2 := bm;
                  log2_fold := log2_ratio (mean a) (mean b);
                  stat := mu.1; p_value := mu.2 |}]).







End WithStats.

(** Names of letters, digits, blanks and apostrophes, with an odd number
    of apostrophes between them: pasted between the quotes of the
    expression they leave a string without its end, as in
    [cluster == 'T cells' & disease == 'Crohn's']. *)
Definition word_char (c : ascii) : bool :=
  letter c || Pandas.is_digit c || (nat_of_ascii c =? 32)
  || (nat_of_ascii c =? 39).

Definition apostrophes (s : string) : nat :=
  length (List.filter (λ c, nat_of_ascii c =? 39)
            (String.list_ascii_of_string s)).

Definition unterminated (key group : string) : bool :=
  forallb word_char (String.list_ascii_of_string (key +:+ group))
  && Nat.odd (apostrophes (key +:+ group)).

(** A model of the numbers for examples: a number is the expression that
    computes it.  The query takes the names that can stand in its
    expression as they are; it refuses, with the SyntaxError of the
    parser, names that leave a string without its end; what it does with
    any other name is left to [other].  The test refuses an empty sample,
    as scipy does ("`x` and `y` must be of nonzero size."). *)
Inductive num : Set :=
| Lit (z : Z)
| NaN
| Mean (xs : list Z)
| Log2Ratio (x y : num)
| U (a b : list Z)
| P (a b : list Z).

Definition lit_value (x : num) : Z :=
  match x with Lit z => z | _ => 0%Z end.

Definition num_stats
    (other : list (observation num) → string → string → string
             → res (list num))
  : Stats num := {|
  nan := NaN;
  query df key attribute group :=
    if quotable key && attribute_name attribute && quotable group
    then Ok (selected df key attribute group)
    else if attribute_name attribute && unterminated key group
    then Raise SyntaxError
    else other df key attribute group;
  mean xs := Mean (map lit_value xs);
  log2_ratio := Log2Ratio;
  mannwhitneyu a b :=
    let a := map lit_value a in
    let b := map lit_value b in
    if bool_decide (a = []) || bool_decide (b = [])
    then Raise ValueError else Ok (U a b, P a b);
|}.

(** The examples use no name in between; for them the model is completed
    with a refusal. *)
Definition refused : list (observation num) → string → string → string
                     → res (list num) :=
  λ _ _ _ _, Raise SyntaxError.

#[global] Instance example_stats : Stats num := num_stats refused.




End Comparisons.

(** ** What a run writes *)

Module Writes.
Import Segmentation.

(** The files that a run writes, in order. *)
Definition written (log : list event) : list string :=
  omap (λ e, match e with
             | Imwrite file | Savefig file => Some file
             | _ => None
             end) log.

End Writes.

Module Outputs.
Import SegmentStacks.

(** The figure files that a run of the command writes, in order. *)
Definition figures (log : list event) : list string :=
  omap (λ e, match e with WriteFigure file => Some file | _ => None end) log.

End Outputs.

(** ** imc/scripts/inspect_ilastik_model.py: [convert_model_data] *)

Module Ilastik.

(** The exceptions of this script: those of [exn], the OSError of h5py
    and the ImportError of an [import] statement. *)
Inductive error : Set :=
| Builtin (e : exn)
| OSError
| ImportError (module_ name : string).

(** The names that [imc/segmentation.py] binds at its top level, besides
    those that every module has: what it imports and what it defines. *)
Definition segmentation_names : list string :=
  ["Union"; "Literal"; "Dict"; "partial"; "np"; "plt"; "eq"; "resize";
   "tifffile"; "Array"; "Figure"; "Path"; "Series";
   "prepare_stack"; "stardist_segment_nuclei";
   "deepcell_resize_to_predict_shape"; "deepcell_segment";
   "plot_image_and_mask"; "segment_roi"].

(** [from imc.segmentation import name]: the object that the module binds
    to [name], here the name itself. *)
Definition from_segmentation_import (name : string) : error + string :=
  if decide (name ∈ segmentation_names) then inr name
  else inl (ImportError "imc.segmentation" name).

(** The files, as the bytes they hold; the directories of the paths in
    question are taken to exist. *)
Definition Files : Type := gmap string string.

(** The first two statements of [convert_model_data]: the default of
    [output_model_path], and the copy.  [open(output_model_path, "wb")]
    empties or creates the output before [open(input_model_path, "rb")]
    is reached.  Returns the output path. *)
Definition copy_model (input_model_path : string)
    (output_model_path : option string) (fs : Files) : res string * Files :=
  let output_model_path :=
    default (replace ".ilp" ".converted.ilp" input_model_path)
            output_model_path in
  let fs := <[output_model_path := EmptyString]> fs in
  match fs !! input_model_path with
  | None => (Raise FileNotFoundError, fs)
  | Some data => (Ok output_model_path, <[output_model_path := data]> fs)
  end.

(** What [convert_model_data] asks of h5py. *)
Class H5py (File Dataset : Type) := {
  (** [h5py.File(path, mode="r+")], on the bytes at the path *)
  h5_open : string → error + File;
  (** [f["Input Data"]["local_data"].items()] *)
  local_data : File → error + list (string * Dataset);
  (** [del f["Input Data"]["local_data"][k]] *)
  delete_local_data : File → string → error + File;
  (** What follows the import in the body of the loop, the rest of the
      loop and of the function: the assignment of the normalized data of
      the channels to retain, the other datasets, the second report of
      the shape and [f.close()]. *)
  after_import :
    File → string → string * Dataset → list (string * Dataset) → list Z →
    error + unit;
}.

Section WithH5py.
Context {File Dataset : Type} `{H5py File Dataset}.

(** From [h5py.File(...)] to the end of [convert_model_data], on the
    bytes of the output file. *)
Definition change_input_data (data : string) (channels_to_retain : list Z)
  : error + unit :=
  match h5_open data with
  | inl e => inl e
  | inr f =>
      match local_data f with
      | inl e => inl e
      | inr items =>
          (* shape = [v.shape for k, v in ...][0] *)
          match items with
          | [] => inl (Builtin IndexError)
          | (k, v) :: rest =>
              (* for k, v in ...: del ...[k]; from imc.segmentation
                 import normalize; ... *)
              match delete_local_data f k with
              | inl e => inl e
              | inr f =>
                  match from_segmentation_import "normalize" with
                  | inl e => inl e
                  | inr normalize =>
                      after_import f normalize (k, v) rest channels_to_retain
                  end
              end
          end
      end
  end.

Definition convert_model_data (input_model_path : string)
    (output_model_path : option string) (channels_to_retain : list Z)
    (fs : Files) : error + unit :=
  match copy_model input_model_path output_model_path fs with
  | (Raise e, _) => inl (Builtin e)
  | (Ok output_model_path, fs) =>
      change_input_data (default EmptyString (fs !! output_model_path))
        channels_to_retain
  end.

End WithH5py.

(** An h5py that opens every file, finds one dataset in it, and lets the
    rest of the function succeed. *)
Definition obliging_h5py : H5py unit unit := {|
  h5_open := λ _, inr tt;
  local_data := λ _, inr [("dataset0", tt)];
  delete_local_data := λ _ _, inr tt;
  after_import := λ _ _ _ _ _, inr tt;
|}.

End Ilastik.

(** * Properties *)

(** ** Segmentation *)

Section SegmentationFacts.
Import Segmentation.
Context {Array : Type} `{ArrayOps Array}.

Lemma bind_Ok_inv {A B} (m : res A) (f : A → res B) (b : B) :
  m ≫= f = Ok b → ∃ a, m = Ok a ∧ f a = Ok b.
Proof. destruct m as [a|]; [by exists a | done]. Qed.

Lemma bool_index_ok {A} (xs : list A) (mask : list bool) :
  length xs = length mask → bool_index xs mask = Ok (select xs mask).
Proof. intros Hlen. unfold bool_index. by rewrite decide_True. Qed.

Lemma select_length_agree {A B} (xs : list A) (ys : list B) mask :
  length xs = length ys →
  length (select xs mask) = length (select ys mask).
Proof.
  revert ys mask. induction xs as [|x xs IH]; intros [|y ys] [|b mask] Hlen;
    simplify_eq/=; try done.
  destruct b; simpl; auto.
Qed.

Lemma select_subseteq {A} (xs : list A) (mask : list bool) (x : A) :
  x ∈ select xs mask → x ∈ xs.
Proof.
  revert mask. induction xs as [|y xs IH]; intros [|b mask] Hx; simpl in Hx;
    try by apply elem_of_nil in Hx.
  destruct b.
  - apply elem_of_cons in Hx as [-> | Hx]; [by left | right; by eapply IH].
  - right. by eapply IH.
Qed.

Lemma mapM_Raise_inv {A B} (f : A → res B) (l : list A) (e : exn) :
  mapM f l = Raise e → ∃ x, x ∈ l ∧ f x = Raise e.
Proof.
  induction l as [|x l IH]; [done|].
  cbn [mapM]. destruct (f x) as [y|e'] eqn:Hx; simpl.
  - destruct (mapM f l) as [k|e'] eqn:Hl; simpl; [done|].
    intros [= ->]. destruct (IH eq_refl) as (z & Hz & Hfz).
    exists z. split; [by right | done].
  - intros [= ->]. exists x. split; [by left | done].
Qed.

(** With the nuclear compartment the code does what the specification
    says: the mean of the equalized channels whose label contains "DNA". *)
Lemma prepare_stack_nuclear stack labels :
  prepare_stack stack labels "nuclear" None
  = spec_prepare_stack stack labels "nuclear".
Proof.
  unfold prepare_stack, spec_prepare_stack, spec_image. simpl.
  destruct (bool_index _ _) as [nuclear|]; [|done]. simpl.
  by destruct (mapM _ _).
Qed.

(** With the cytoplasm compartment the code, once it has equalized the
    nuclear channels, averages the channels that its own [cyto_chs] mask
    leaves out: those that match "DNA|Ki67|SMA". *)
Lemma prepare_stack_cytoplasm stack labels :
  length (planes stack) = length labels →
  prepare_stack stack labels "cytoplasm" None
  = (_ ← mapM equalize_hist (select (planes stack) (nuclear_chs labels));
     equalized ← mapM equalize_hist
                   (select (planes stack)
                      (map (λ l, contains "DNA" l || contains "Ki67" l
                                 || contains "SMA" l) labels));
     Ok (mean0 equalized)).
Proof.
  intros Hlen. unfold prepare_stack. simpl.
  rewrite !bool_index_ok
    by (unfold nuclear_chs, cyto_chs; by rewrite !length_map).
  unfold cyto_chs. rewrite map_map.
  assert (map (λ l, negb (negb (contains "DNA" l || contains "Ki67" l
                                || contains "SMA" l))) labels
          = map (λ l, contains "DNA" l || contains "Ki67" l
                      || contains "SMA" l) labels) as ->.
  { apply map_ext. intros l. by rewrite negb_involutive. }
  done.
Qed.

(** [prepare_stack] for one of the three compartments, when the labels
    and the exclusion flags are as many as the planes: no indexing fails,
    and what remains are the calls of [equalize_hist] and [np.stack]. *)
Lemma prepare_stack_indexed stack labels compartment channel_exclude :
  compartment ∈ ["nuclear"; "cytoplasm"; "both"] →
  length (planes stack) = length labels →
  (∀ exclude, channel_exclude = Some exclude →
              length exclude = length labels) →
  prepare_stack stack labels compartment channel_exclude
  = (let planes := kept (planes stack) channel_exclude in
     let labels := kept labels channel_exclude in
     equalized ← mapM equalize_hist (select planes (nuclear_chs labels));
     let nucl := mean0 equalized in
     if decide (compartment = "nuclear") then Ok nucl else
     equalized ← mapM equalize_hist
                   (select planes (map negb (cyto_chs labels)));
     let cyto := mean0 equalized in
     if decide (compartment = "cytoplasm") then Ok cyto else
     np_stack nucl cyto).
Proof.
  intros Hin Hlen Hexc. unfold prepare_stack.
  rewrite bool_decide_eq_true_2 by done. cbv zeta. simpl.
  assert (match channel_exclude with
          | Some exclude =>
              stack' ← bool_index (planes stack) (map negb exclude);
              labels' ← bool_index labels (map negb exclude);
              Ok (stack', labels')
          | None => Ok (planes stack, labels)
          end = Ok (kept (planes stack) channel_exclude,
                    kept labels channel_exclude)
          ∧ length (kept (planes stack) channel_exclude)
            = length (kept labels channel_exclude)) as [-> Hkept].
  { destruct channel_exclude as [exclude|]; [|done].
    specialize (Hexc exclude eq_refl).
    rewrite !bool_index_ok by (rewrite length_map; congruence).
    split; [done|]. apply select_length_agree; congruence. }
  simpl.
  rewrite !bool_index_ok
    by (unfold nuclear_chs, cyto_chs; by rewrite !length_map).
  done.
Qed.


End SegmentationFacts.

(** C3 (prepare_stack selects compartment channels by name pattern).  The
    specification takes the cytoplasm image to be the mean of the equalized
    channels whose label does not match "DNA|Ki67|SMA".  On a stack with the
    channels "DNA1(Ir191)" and "CD45(Sm152)" the code returns the equalized
    DNA channel instead, and the image the specification describes is the
    equalized CD45 channel: [prepare_stack] indexes the stack with the
    negation of its [cyto_chs] mask. *)
Theorem prepare_stack_cytoplasm_takes_matching_channels :
  let stack := Symbolic.example_stack in
  let labels := Symbolic.example_labels in
  Segmentation.prepare_stack stack labels "cytoplasm" None
  = Ok (Symbolic.Mean0 [Symbolic.EqualizeHist (Symbolic.Plane stack 0)])
  ∧ Segmentation.spec_prepare_stack stack labels "cytoplasm"
    = Ok (Symbolic.Mean0 [Symbolic.EqualizeHist (Symbolic.Plane stack 1)])
  ∧ Segmentation.prepare_stack stack labels "cytoplasm" None
    ≠ Segmentation.spec_prepare_stack stack labels "cytoplasm".
Proof. cbv zeta. split; [reflexivity | split; [reflexivity | discriminate]]. Qed.

Section SegmentRoiFacts.
Import Segmentation.
Context {Array : Type} `{ArrayOps Array}.

Lemma bind_lift_ok {A B} (a : A) (f : A → Run B) :
  lift (Ok a) ≫= f = f a.
Proof. unfold lift, mbind, run_bind. by destruct (f a). Qed.





End SegmentRoiFacts.


Section MaskShape.
Import Segmentation.
Context {Array : Type} `{ShapeLaws Array}.










End MaskShape.

Lemma sym_equalized_finite (xs equalized : list Symbolic.sym) :
  mapM Segmentation.equalize_hist xs = Ok equalized →
  forallb Symbolic.sym_finite equalized = true.
Proof.
  revert equalized. induction xs as [|x xs IH]; intros equalized.
  { by intros [= <-]. }
  cbn [mapM]. intros Hmap.
  apply bind_Ok_inv in Hmap as (y & Hy & Hmap).
  apply bind_Ok_inv in Hmap as (k & Hk & [= <-]).
  simpl in Hy. destruct (Symbolic.sym_finite x); [|done].
  injection Hy as <-. simpl. by apply IH.
Qed.

(** The free model satisfies the shape laws. *)
#[global] Instance sym_shape_laws : Segmentation.ShapeLaws Symbolic.sym.
Proof.
  split.
  - intros a x Hx. simpl in Hx.
    apply list_elem_of_fmap in Hx as (i & -> & _). done.
  - intros a r. simpl. destruct (Symbolic.sym_finite a); [|done].
    by intros [= <-].
  - done.
  - intros xs equalized _ Hmap Hne. simpl.
    apply sym_equalized_finite in Hmap.
    destruct equalized as [|y equalized]; [done|]. by rewrite Hmap.
  - done.
  - done.
  - done.
  - intros a s Hlen. simpl. rewrite decide_True by done. by eexists.
  - done.
  - intros a i Hi. simpl. by rewrite decide_True.
  - done.
  - intros app a b x y c. simpl. by intros ->.
Qed.




(** ** The segment command *)

Section SegmentStacksFacts.
Import Segmentation SegmentStacks.
Context {Array : Type} `{ArrayOps Array}.

Lemma cmd_bind_returns {A B} (m : Cmd A) (f : A → Cmd B) (fs : FS Array) l a fs' :
  m fs = (l, Ok a, fs') →
  (m ≫= f) fs = let '(l', r, fs'') := f a fs' in (l ++ l', r, fs'').
Proof. intros Hm. unfold mbind, cmd_bind. by rewrite Hm. Qed.


Lemma path_exists_bind {B} (file : string) (f : bool → Cmd B) (fs : FS Array) :
  (path_exists file ≫= f) fs = f (bool_decide (is_Some (fs !! file))) fs.
Proof.
  unfold mbind, cmd_bind, path_exists.
  by destruct (f _ fs) as [[l r] fs'].
Qed.

Lemma call_segment_roi_state roi args (fs : FS Array) :
  (call_segment_roi roi args fs).2 = fs.
Proof. unfold call_segment_roi. by destruct (segment_roi _ _ _ _ _ _). Qed.











End SegmentStacksFacts.


(** A companion file that is there and cannot be read aborts the run in
    the first loop: the stacks after it that lack their channel labels are
    not reported. *)
Lemma main_aborts_on_unreadable_labels :
  (SegmentStacks.main true SegmentStacks.example_args
     SegmentStacks.unreadable_files).1
  = ([SegmentStacks.Print
        (SegmentStacks.Starting 2
           ["s1/tiffs/roi1_full.tiff"; "s1/tiffs/roi2_full.tiff"])],
     Raise ValueError)
  ∧ SegmentStacks.has_labels SegmentStacks.unreadable_files
      "s1/tiffs/roi2_full.tiff" = false.
Proof. split; vm_compute; reflexivity. Qed.


(** ** The project: lookups *)

Section LookupFacts.
Import Project.
Context {Sample ROI : Type} {Samples : SampleClass Sample ROI}
        {Tuples : Project.GroupsOfTuples}.

Lemma filter_none {A} (f : A → bool) (l : list A) :
  (∀ x, x ∈ l → f x = false) → List.filter f l = [].
Proof.
  induction l as [|x l IH]; intros Hnone; [done|].
  simpl. rewrite (Hnone x) by left. apply IH.
  intros y Hy. apply Hnone. by right.
Qed.

(** C8 (get_samples and get_rois return None when nothing matches).
    When no sample of the project has one of the given names,
    [get_samples] returns [None] and raises nothing; likewise [get_rois]
    when no ROI of the project has one of the given names. *)
Theorem get_samples_get_rois_return_None (self : Project Sample)
    (names : string + list string) :
  (Forall (λ s, sample_name s ∉ as_list names) (samples self) →
   get_samples self names = Ok RNone)
  ∧ (Forall (λ r, roi_name r ∉ as_list names) (rois self) →
     get_rois self names = Ok RNone).
Proof.
  split; intros Hnone; rewrite Forall_forall in Hnone.
  - unfold get_samples. rewrite filter_none; [done|].
    intros s Hs. apply bool_decide_eq_false_2. by apply Hnone.
  - unfold get_rois. rewrite filter_none; [done|].
    intros r Hr. apply bool_decide_eq_false_2. by apply Hnone.
Qed.

End LookupFacts.

Lemma get_samples_get_rois_return_None_witness :
  Project.get_samples (Samples := Project.listed_samples)
    Project.example_listed_project (inl "s3") = Ok Project.RNone
  ∧ Project.get_rois (Samples := Project.listed_samples)
      Project.example_listed_project (inl "s3") = Ok Project.RNone.
Proof.
  pose proof (get_samples_get_rois_return_None (Samples := Project.listed_samples)
                Project.example_listed_project (inl "s3")) as [Hs Hr].
  split.
  - apply Hs. apply (bool_decide_unpack _). vm_compute. exact I.
  - apply Hr. apply (bool_decide_unpack _). vm_compute. exact I.
Defined.

(** ** The project: directories and cluster assignments *)

Section ClusterFacts.
Import Pandas Project.
Context {Sample ROI : Type} {Samples : SampleClass Sample ROI}
        {Tuples : Project.GroupsOfTuples}.

(** [set_clusters], statement by statement. *)
Lemma set_clusters_steps (c : option Series) (w : bool)
    (s : option (list Sample)) (prj : Project Sample) (fs : FS) :
  set_clusters c w s (prj, fs)
  = match mkdir_outcome prj fs with
    | Raise e => (Raise e, (prj, fs))
    | Ok fs1 =>
        match (match c with
               | None => file ← open_csv (cluster_assignments_file prj) fs1;
                         read_clusters file
               | Some c => Ok c
               end) with
        | Raise e => (Raise e, (prj, fs1))
        | Ok cl =>
            if is_MultiIndex (s_index cl)
               && bool_decide (index_names (s_index cl) = map Some id_cols)
            then
              match propagate_clusters cl (list_or s (samples prj)) with
              | Raise e => (Raise e, (with_clusters prj cl, fs1))
              | Ok _ =>
                  if w then
                    match write_clusters cl with
                    | Raise e => (Raise e, (with_clusters prj cl, fs1))
                    | Ok file =>
                        match write_csv (cluster_assignments_file prj) file
                                fs1 with
                        | Raise e => (Raise e, (with_clusters prj cl, fs1))
                        | Ok fs2 => (Ok tt, (with_clusters prj cl, fs2))
                        end
                    end
                  else (Ok tt, (with_clusters prj cl, fs1))
              end
            else (Raise AssertionError, (prj, fs1))
        end
    end.
Proof.
  unfold set_clusters, mkdir_outcome, mbind, method_bind, self, on_files,
    lift, set__clusters, assert. simpl.
  destruct (mkdir _ fs) as [fs1|e]; [|done]. simpl.
  destruct c as [cl|]; simpl.
  - destruct (is_MultiIndex (s_index cl)); simpl; [|done].
    case_bool_decide; simpl; [|done].
    destruct (propagate_clusters _ _) as [[]|]; [|done].
    destruct w; [|done]. simpl.
    destruct (write_clusters cl); [|done]. simpl.
    by destruct (write_csv _ _ fs1).
  - destruct (res_bind _ _ _ _) as [cl|]; [|done].
    destruct (is_MultiIndex (s_index cl)); simpl; [|done].
    case_bool_decide; simpl; [|done].
    destruct (propagate_clusters _ _) as [[]|]; [|done].
    destruct w; [|done]. simpl.
    destruct (write_clusters cl); [|done]. simpl.
    by destruct (write_csv _ _ fs1).
Qed.

Lemma conforming_checked (cl : Series) :
  is_MultiIndex (s_index cl)
  && bool_decide (index_names (s_index cl) = map Some id_cols) = true
  ↔ conforming cl.
Proof.
  unfold conforming. rewrite andb_true_iff, bool_decide_eq_true. done.
Qed.

Lemma read_clusters_conforming (file : csv) (cl : Series) :
  read_clusters file = Ok cl → conforming cl.
Proof.
  unfold read_clusters, set_index_getitem. intros Hread.
  apply bind_Ok_inv in Hread as (df & _ & Hread).
  apply bind_Ok_inv in Hread as (levels & _ & Hread).
  apply bind_Ok_inv in Hread as (values & _ & Hread).
  by injection Hread as <-.
Qed.

(** [set_clusters] keeps the composite key.  A series whose index is
    not a MultiIndex named [sample, roi, obj_id] is never assigned: the
    call raises and leaves the project as it was.  The exception is the
    one of [fn.parent.mkdir()] when that statement fails, and
    AssertionError once the directory has been created.  After any call
    [_clusters] is what it was before, or a series with that index. *)
Theorem set_clusters_keeps_composite_key (prj : Project Sample) (fs : FS) :
  (∀ clusters w s,
      ¬ conforming clusters →
      set_clusters (Some clusters) w s (prj, fs)
      = match mkdir_outcome prj fs with
        | Ok fs1 => (Raise AssertionError, (prj, fs1))
        | Raise e => (Raise e, (prj, fs))
        end)
  ∧ (∀ c w s,
        let prj' := (set_clusters c w s (prj, fs)).2.1 in
        _clusters prj' = _clusters prj
        ∨ ∃ cl, _clusters prj' = Some cl ∧ conforming cl).
Proof.
  split.
  - intros clusters w s Hbad. rewrite set_clusters_steps.
    destruct (mkdir_outcome prj fs) as [fs1|e]; [|done].
    rewrite <- conforming_checked in Hbad.
    by destruct (_ && _).
  - intros c w s. rewrite set_clusters_steps.
    destruct (mkdir_outcome prj fs) as [fs1|e]; [|by left].
    destruct (match c with None => _ | Some c => Ok c end) as [cl|e] eqn:Hc;
      [|by left].
    destruct (_ && _) eqn:Hok; [|by left].
    apply conforming_checked in Hok.
    assert (∃ cl', _clusters (with_clusters prj cl) = Some cl'
                   ∧ conforming cl') as Hdone by (by exists cl).
    destruct (propagate_clusters _ _) as [[]|]; [|by right].
    destruct w; [|by right].
    destruct (write_clusters cl); [|by right].
    destruct (write_csv _ _ fs1); by right.
Qed.

(** *** Directories *)

Lemma prefix_slash_cons c s :
  String.prefix "/" (String c s) = bool_decide (c = "/"%char).
Proof.
  cbn [String.prefix]. destruct (ascii_dec "/" c) as [<-|Hne].
  - by destruct s.
  - by rewrite bool_decide_eq_false_2.
Qed.

Lemma contains_cons sub c s :
  contains sub (String c s)
  = String.prefix sub (String c s) || contains sub s.
Proof. done. Qed.

Lemma contains_slash_cons c s :
  contains "/" (String c s) = false → c ≠ "/"%char ∧ contains "/" s = false.
Proof.
  rewrite contains_cons, prefix_slash_cons. intros Hc.
  apply orb_false_iff in Hc as [Hp Hs].
  split; [|done]. by apply bool_decide_eq_false in Hp.
Qed.

Lemma split_on_no_slash s :
  contains "/" s = false → split_on "/"%char s = [s].
Proof.
  induction s as [|c s IH]; [done|].
  intros Hc. apply contains_slash_cons in Hc as [Hne Hs].
  cbn [split_on]. rewrite decide_False by done. by rewrite (IH Hs).
Qed.

Lemma contains_slash_app a b :
  contains "/" a = false → contains "/" b = false →
  contains "/" (a +:+ b) = false.
Proof.
  induction a as [|c a IH]; [done|].
  intros Ha Hb. apply contains_slash_cons in Ha as [Hne Ha].
  change (String c a +:+ b) with (String c (a +:+ b)).
  rewrite contains_cons, prefix_slash_cons, (IH Ha Hb), orb_false_r.
  by apply bool_decide_eq_false.
Qed.

Lemma cluster_assignments_file_parts (prj : Project Sample) :
  no_slash (name prj) →
  cluster_assignments_file prj
  = results_dir prj
      ++ ["single_cell"; name prj +:+ ".single_cell.cluster_assignments.csv"].
Proof.
  intros Hname. unfold cluster_assignments_file.
  set (file := name prj +:+ ".single_cell.cluster_assignments.csv").
  assert (contains "/" file = false) as Hfile
    by (by apply contains_slash_app).
  assert (file ≠ EmptyString ∧ file ≠ ".") as [Hne Hdot].
  { subst file. destruct (name prj) as [|c [|c' n]];
      split; intros Heq; simplify_eq/=. }
  assert (String.prefix "/" file = false) as Hprefix.
  { destruct file as [|c f]; [done|].
    apply contains_slash_cons in Hfile as [Hc _].
    rewrite prefix_slash_cons. by apply bool_decide_eq_false. }
  unfold path_div at 1. rewrite Hprefix.
  unfold path_parts at 1. rewrite (split_on_no_slash _ Hfile). simpl.
  rewrite !bool_decide_eq_false_2 by done. simpl.
  change (path_div (results_dir prj) DEFAULT_PRJ_SINGLE_CELL_DIR)
    with (results_dir prj ++ ["single_cell"]).
  by rewrite <- app_assoc.
Qed.

Lemma cluster_assignments_dir (prj : Project Sample) :
  no_slash (name prj) →
  parent (cluster_assignments_file prj) = results_dir prj ++ ["single_cell"]
  ∧ parent (parent (cluster_assignments_file prj)) = results_dir prj.
Proof.
  intros Hname. rewrite (cluster_assignments_file_parts _ Hname).
  unfold parent.
  change (results_dir prj ++ ["single_cell"; ?f])
    with (results_dir prj ++ ["single_cell"] ++ [f]).
  by rewrite app_assoc, !removelast_last.
Qed.

Lemma mkdir_existing p fs :
  path_exists fs p = true → mkdir p fs = Raise FileExistsError.
Proof. intros Hp. unfold mkdir. by rewrite Hp. Qed.

Lemma mkdir_creates p fs fs1 :
  mkdir p fs = Ok fs1 → path_exists fs1 p = true.
Proof.
  unfold mkdir. intros Hm. repeat case_match; simplify_eq.
  unfold path_exists, is_dir. simpl.
  rewrite bool_decide_eq_true_2; [done|]. right. set_solver.
Qed.

Lemma mkdir_below_directory p fs :
  is_dir fs (parent p) = true →
  mkdir p fs = Raise FileExistsError ∨ ∃ fs1, mkdir p fs = Ok fs1.
Proof.
  intros Hparent. unfold mkdir. rewrite Hparent.
  destruct (path_exists fs p); eauto.
Qed.

Lemma write_csv_keeps_directories p q file fs fs2 :
  write_csv p file fs = Ok fs2 →
  path_exists fs q = true → path_exists fs2 q = true.
Proof.
  unfold write_csv. intros Hw. repeat case_match; simplify_eq.
  unfold path_exists, is_dir, is_file. simpl.
  intros Hq. apply orb_true_iff in Hq as [Hq | Hq].
  - by rewrite Hq.
  - apply orb_true_iff. right.
    apply bool_decide_eq_true in Hq. apply bool_decide_eq_true_2.
    destruct (decide (p = q)) as [->|Hne].
    + rewrite lookup_insert_eq. by eexists.
    + by rewrite lookup_insert_ne.
Qed.

(** After a call of [set_clusters] on a project whose results directory
    exists, the directory of the cluster file exists. *)
Lemma set_clusters_leaves_directory c w s (prj : Project Sample) fs :
  is_dir fs (results_dir prj) = true →
  no_slash (name prj) →
  let st := (set_clusters c w s (prj, fs)).2 in
  cluster_assignments_file st.1 = cluster_assignments_file prj
  ∧ path_exists st.2 (parent (cluster_assignments_file prj)) = true.
Proof.
  intros Hdir Hname. rewrite set_clusters_steps. unfold mkdir_outcome.
  destruct (cluster_assignments_dir prj Hname) as [_ Hup].
  destruct (mkdir_below_directory (parent (cluster_assignments_file prj)) fs)
    as [Hm | [fs1 Hm]]; [by rewrite Hup | |]; rewrite Hm.
  - split; [done|]. unfold mkdir in Hm. by repeat case_match.
  - apply mkdir_creates in Hm.
    repeat case_match; simpl; split; try done.
    all: eapply write_csv_keeps_directories; eauto.
Qed.

(** C9 (directories are created without exist_ok).  Constructing a
    project raises FileExistsError whenever its results directory exists
    already; and of two calls of [set_clusters] on a project whose
    results directory exists, the second raises FileExistsError, whatever
    the arguments of either. *)
Theorem mkdir_without_exist_ok :
  (∀ metadata name sample_name_attribute sample_grouping_attributes
     panel_metadata toggle subfolder_per_sample processed_dir results_dir
     detected init_toggle init_grouping kwargs fs,
      path_exists fs results_dir = true →
      init metadata name sample_name_attribute sample_grouping_attributes
        panel_metadata toggle subfolder_per_sample processed_dir results_dir
        detected init_toggle init_grouping kwargs fs
      = (Raise FileExistsError, fs))
  ∧ (∀ (prj : Project Sample) fs c1 w1 s1 c2 w2 s2,
        is_dir fs (results_dir prj) = true →
        no_slash (name prj) →
        (set_clusters c2 w2 s2 (set_clusters c1 w1 s1 (prj, fs)).2).1
        = Raise FileExistsError).
Proof.
  split.
  - intros. unfold init. by rewrite mkdir_existing.
  - intros prj fs c1 w1 s1 c2 w2 s2 Hdir Hname.
    destruct (set_clusters_leaves_directory c1 w1 s1 prj fs Hdir Hname)
      as [Hfile Hexists].
    destruct (set_clusters c1 w1 s1 (prj, fs)) as [r [prj1 fs1]].
    simpl in *. rewrite set_clusters_steps. unfold mkdir_outcome.
    rewrite Hfile. by rewrite mkdir_existing.
Qed.

End ClusterFacts.

(** C5 (set_clusters accepts only the composite key).  On a project
    whose results directory holds [single_cell] already, a series with a
    flat index is not refused by the assertions, with AssertionError, as
    the specification has it: [fn.parent.mkdir()], which comes first and
    is called without [exist_ok], raises FileExistsError.  The project is
    left as it was. *)
Theorem set_clusters_flat_index_FileExistsError :
  ¬ Project.conforming Project.flat_clusters
  ∧ Project.set_clusters (Samples := Project.plain_samples)
      (Some Project.flat_clusters) false None
      (Project.example_project, Project.example_fs)
    = (Raise FileExistsError, (Project.example_project, Project.example_fs))
  ∧ (Project.set_clusters (Samples := Project.plain_samples)
       (Some Project.flat_clusters) false None
       (Project.example_project, Project.example_fs)).1
    ≠ Raise AssertionError.
Proof.
  split; [|split].
  - intros [Hmulti _]. discriminate Hmulti.
  - rewrite set_clusters_steps. reflexivity.
  - rewrite set_clusters_steps. discriminate.
Qed.

Lemma set_clusters_keeps_composite_key_witness :
  (Project.set_clusters (Samples := Project.plain_samples)
     (Some Project.flat_clusters) false None
     (Project.example_project, Project.fresh_fs)).1
  = Raise AssertionError.
Proof.
  rewrite (proj1 (set_clusters_keeps_composite_key (Samples := Project.plain_samples)
                    Project.example_project Project.fresh_fs)).
  - vm_compute. reflexivity.
  - intros [Hmulti _]. discriminate Hmulti.
Defined.

Lemma mkdir_without_exist_ok_witness :
  Project.init (Samples := Project.plain_samples)
    (Tuples := Project.first_appearance) None "project" "sample_name" None
    None true true ["data"; "processed"] ["data"; "results"] [] None None ∅
    Project.fresh_fs
  = (Raise FileExistsError, Project.fresh_fs)
  ∧ (Project.set_clusters (Samples := Project.plain_samples)
       (Some Project.example_clusters) false None
       (Project.set_clusters (Samples := Project.plain_samples)
          (Some Project.example_clusters) false None
          (Project.example_project, Project.fresh_fs)).2).1
    = Raise FileExistsError.
Proof.
  destruct (mkdir_without_exist_ok (Samples := Project.plain_samples)
              (Tuples := Project.first_appearance))
    as [Hinit Hset].
  split.
  - apply Hinit. vm_compute. reflexivity.
  - apply Hset; vm_compute; reflexivity.
Defined.

Lemma map_nth_seq {A B} (f : A → B) (d : A) (l : list A) :
  map (λ i, f (nth i l d)) (seq 0 (length l)) = map f l.
Proof.
  induction l as [|x l IH]; [done|].
  simpl. f_equal. rewrite <- seq_shift, map_map. exact IH.
Qed.

(** ** The cluster file *)

(** Apart from the directory, the two expressions do not give every
    series back: cluster labels that are the texts "1" and "2" (what
    [cluster_cells] sets with [clusters.astype(str)]) are written as [1]
    and [2], and [read_csv], which is told to keep only "sample" and "roi"
    as texts, reads the column back as integers. *)
Lemma numeric_labels_come_back_as_integers :
  (file ← Project.write_clusters Project.example_clusters;
   Project.read_clusters file)
  = Ok {| Pandas.s_index := Pandas.s_index Project.example_clusters;
          Pandas.s_values := [Pandas.VInt 1; Pandas.VInt 2];
          Pandas.s_name := Some "cluster" |}
  ∧ (file ← Project.write_clusters Project.example_clusters;
     Project.read_clusters file)
    ≠ Ok Project.example_clusters.
Proof.
  split.
  - vm_compute. reflexivity.
  - vm_compute. discriminate.
Qed.

(** ** The testing loops *)

Section UniqueFacts.
Import Project.

Lemma unique_from_elem {A} `{EqDecision A} (seen l : list A) (x : A) :
  x ∈ unique_from seen l ↔ x ∈ l ∧ x ∉ seen.
Proof.
  revert seen. induction l as [|y l IH]; intros seen; simpl.
  { split; [by intros ?%elem_of_nil | by intros [?%elem_of_nil _]]. }
  destruct (decide (y ∈ seen)) as [Hy | Hy].
  - rewrite IH, elem_of_cons. split; [tauto|].
    intros [[-> | Hx] Hseen]; [done | tauto].
  - rewrite !elem_of_cons, IH, elem_of_cons. split.
    + intros [-> | [Hx Hseen]]; [tauto|]. split; [tauto|].
      intros Hin. apply Hseen. tauto.
    + intros [[-> | Hx] Hseen]; [tauto|].
      destruct (decide (x = y)) as [-> | Hne]; [tauto|].
      right. split; [done|]. intros [? | ?]; tauto.
Qed.

Lemma unique_elem {A} `{EqDecision A} (l : list A) (x : A) :
  x ∈ unique l ↔ x ∈ l.
Proof.
  unfold unique. rewrite unique_from_elem. split; [tauto|].
  intros Hx. split; [done|]. by intros ?%elem_of_nil.
Qed.

End UniqueFacts.

Section TestingLoops.
Import Comparisons.
Context {F : Type} `{Stats F}.






(** An exception of the test other than ValueError is not caught. *)
Lemma test_pair_reraises df attribute key groups (_res : list (test_row F))
    a b e :
  query df key attribute groups.1 = Ok a →
  query df key attribute groups.2 = Ok b →
  mannwhitneyu a b = Raise e → e ≠ ValueError →
  test_pair df attribute key groups _res = Raise e.
Proof.
  intros Ha Hb Hmu He. unfold test_pair. rewrite Ha, Hb.
  cbn [mbind res_bind]. rewrite Hmu. by destruct e.
Qed.



End TestingLoops.




(** ** The project: one sample per group *)

Section Grouping.
Import Pandas Project.

Lemma unique_from_NoDup {A} `{EqDecision A} (seen l : list A) :
  NoDup (unique_from seen l).
Proof.
  revert seen. induction l as [|y l IH]; intros seen; simpl;
    [by constructor|].
  destruct (decide (y ∈ seen)); [done|].
  constructor; [|done]. rewrite unique_from_elem. intros [_ Hy].
  apply Hy. by left.
Qed.

Lemma unique_NoDup {A} `{EqDecision A} (l : list A) : NoDup (unique l).
Proof. apply unique_from_NoDup. Qed.

Lemma unique_from_snoc {A} `{EqDecision A} (seen l : list A) (x : A) :
  unique_from seen (l ++ [x])
  = unique_from seen l
    ++ (if decide (x ∈ seen ∨ x ∈ l) then [] else [x]).
Proof.
  revert seen. induction l as [|y l IH]; intros seen.
  - cbn [app unique_from]. apply decide_ext.
    split; [tauto | intros [? | ?%elem_of_nil]; tauto].
  - cbn [app unique_from]. destruct (decide (y ∈ seen)) as [Hy | Hy].
    + rewrite IH. f_equal. apply decide_ext. rewrite elem_of_cons.
      split; [tauto | intros [? | [-> | ?]]; tauto].
    + rewrite IH, <- app_comm_cons. do 2 f_equal. apply decide_ext.
      rewrite !elem_of_cons. tauto.
Qed.

Lemma unique_snoc {A} `{EqDecision A} (l : list A) (x : A) :
  unique (l ++ [x]) = unique l ++ (if decide (x ∈ l) then [] else [x]).
Proof.
  unfold unique. rewrite unique_from_snoc. f_equal. apply decide_ext.
  split; [intros [?%elem_of_nil | ?]; tauto | tauto].
Qed.



(** *** The groups *)

Lemma select_app {A} (xs ys : list A) (m m' : list bool) :
  length xs = length m →
  select (xs ++ ys) (m ++ m') = select xs m ++ select ys m'.
Proof.
  revert m. induction xs as [|x xs IH]; intros [|b m] Hlen;
    simpl in Hlen; try lia; [done|].
  simpl. rewrite (IH m) by lia. by destruct b.
Qed.

Lemma positions_snoc (m : list bool) (b : bool) :
  positions (m ++ [b]) = positions m ++ (if b then [length m] else []).
Proof.
  unfold positions. rewrite length_app. simpl.
  rewrite seq_app, select_app by by rewrite length_seq.
  by destruct b.
Qed.

Lemma indices_of_snoc (key k : list value) (keys : list (list value)) :
  indices_of key (keys ++ [k])
  = indices_of key keys ++ (if decide (key = k) then [length keys] else []).
Proof.
  unfold indices_of. rewrite map_app. simpl.
  rewrite positions_snoc, length_map.
  destruct (decide (key = k));
    [by rewrite bool_decide_eq_true_2 | by rewrite bool_decide_eq_false_2].
Qed.

Lemma indices_of_absent (key : list value) (keys : list (list value)) :
  key ∉ keys → indices_of key keys = [].
Proof.
  induction keys as [|k keys IH] using rev_ind; [done|].
  intros Hnot. rewrite indices_of_snoc.
  rewrite elem_of_app, list_elem_of_singleton in Hnot.
  rewrite IH by tauto. rewrite decide_False; [done|].
  intros ->. tauto.
Qed.


Lemma groups_of_snoc (keys : list (list value)) (k : list value) :
  groups_of (keys ++ [k])
  = if complete k then add_to_group k (length keys) (groups_of keys)
    else groups_of keys.
Proof.
  unfold groups_of, complete. rewrite imap_app, foldl_app. simpl.
  rewrite Nat.add_0_r. by case_bool_decide.
Qed.

Lemma add_to_group_spec (k : list value) (i : nat)
    (rows : list value → list nat) (ks : list (list value)) :
  NoDup ks →
  add_to_group k i (map (λ k', (k', rows k')) ks)
  = map (λ k', (k', rows k' ++ (if decide (k' = k) then [i] else []))) ks
    ++ (if decide (k ∈ ks) then [] else [(k, [i])]).
Proof.
  induction 1 as [|k0 ks Hk0 Hks IH]; [done|].
  cbn [map add_to_group]. destruct (decide (k0 = k)) as [-> | Hne].
  - rewrite decide_True by left. rewrite app_nil_r. f_equal.
    apply map_ext_in. intros k' Hk'. apply list_elem_of_In in Hk'.
    rewrite decide_False; [by rewrite app_nil_r|]. by intros ->.
  - rewrite IH, app_nil_r. simpl. do 2 f_equal. apply decide_ext.
    rewrite elem_of_cons. split; [tauto | intros [-> | ?]; tauto].
Qed.

(** [groupby(...).groups]: the complete keys in order of first appearance,
    each with its rows. *)
Lemma groups_of_spec (keys : list (list value)) :
  groups_of keys
  = map (λ key, (key, indices_of key keys))
        (unique (List.filter complete keys)).
Proof.
  induction keys as [|k keys IH] using rev_ind; [done|].
  rewrite groups_of_snoc, List.filter_app. simpl.
  destruct (complete k) eqn:Hk.
  - rewrite IH, add_to_group_spec by apply unique_NoDup.
    rewrite unique_snoc, map_app.
    destruct (decide (k ∈ List.filter complete keys)) as [Hin | Hnot].
    + rewrite decide_True by by apply unique_elem.
      simpl. rewrite !app_nil_r. apply map_ext. intros key.
      by rewrite indices_of_snoc.
    + rewrite decide_False by by rewrite unique_elem.
      simpl. f_equal.
      * apply map_ext. intros key. by rewrite indices_of_snoc.
      * rewrite indices_of_snoc, decide_True by done.
        rewrite indices_of_absent; [done|].
        intros Hin. apply Hnot. apply list_elem_of_In, filter_In.
        split; [by apply list_elem_of_In | done].
  - rewrite app_nil_r, IH. apply map_ext_in. intros key Hkey.
    rewrite indices_of_snoc, decide_False; [by rewrite app_nil_r|].
    intros ->. apply list_elem_of_In in Hkey. rewrite unique_elem in Hkey.
    apply list_elem_of_In in Hkey.
    apply filter_In in Hkey as [_ Hkey]. congruence.
Qed.

(** *** The columns of a group *)




Lemma column_loc_rows (c : string) (idx : list nat) (df : DataFrame) :
  column c (loc_rows idx df)
  = col ← column c df; Ok (map (λ i, nth i col VNaN) idx).
Proof.
  induction df as [|[n col] df IH]; [done|].
  simpl. by destruct (decide (n = c)).
Qed.





End Grouping.

Section OneSamplePerGroup.
Import Pandas Project.
Context {Sample ROI : Type} {Samples : SampleClass Sample ROI}
        {Tuples : Project.GroupsOfTuples}.



End OneSamplePerGroup.



(** * Further properties of the code *)

(** ** Preparing and segmenting a stack *)

Section PrepareStackFacts.
Import Segmentation.
Context {Array : Type} `{ArrayOps Array}.

Lemma select_all {A} (xs : list A) (mask : list bool) :
  length mask = length xs → Forall (λ b, b = false) mask →
  select xs (map negb mask) = xs.
Proof.
  revert mask. induction xs as [|x xs IH]; intros [|b mask] Hlen Hall;
    simplify_eq/=; try done.
  apply Forall_cons in Hall as [-> Hall]. simpl. f_equal. by apply IH.
Qed.

Lemma select_none {A} (xs : list A) (mask : list bool) :
  Forall (λ b, b = false) mask → select xs mask = [].
Proof.
  revert mask. induction xs as [|x xs IH]; intros [|b mask] Hall; try done.
  apply Forall_cons in Hall as [-> Hall]. simpl. by apply IH.
Qed.

Lemma select_Forall {A} (P : A → Prop) (xs : list A) (mask : list bool) :
  Forall P xs → Forall P (select xs mask).
Proof.
  revert mask. induction xs as [|x xs IH]; intros [|b mask] Hall; simpl;
    try done.
  apply Forall_cons in Hall as [Hx Hall].
  destruct b; [apply Forall_cons; split|]; auto.
Qed.

Lemma bool_index_raises {A} (xs : list A) (mask : list bool) :
  length xs ≠ length mask → bool_index xs mask = Raise IndexError.
Proof. intros Hlen. unfold bool_index. by rewrite decide_False. Qed.

(** X1 (when prepare_stack returns and what it raises).
    [prepare_stack] raises AssertionError for a compartment other than
    "nuclear", "cytoplasm" and "both", whatever the stack; IndexError when
    the channel labels, or the exclusion flags, are not as many as the
    planes of the stack.  Otherwise it returns an image, unless
    [equalize_hist] raises on a plane of the stack or, for "both",
    [np.stack] raises on the two means: then it raises what they raise. *)
Theorem prepare_stack_outcome (stack : Array) (labels : list string)
    (compartment : string) (channel_exclude : option (list bool)) :
  let lengths_agree :=
    length (planes stack) = length labels
    ∧ ∀ exclude, channel_exclude = Some exclude →
                 length exclude = length labels in
  match prepare_stack stack labels compartment channel_exclude with
  | Ok _ => compartment ∈ ["nuclear"; "cytoplasm"; "both"] ∧ lengths_agree
  | Raise e =>
      if bool_decide (compartment ∈ ["nuclear"; "cytoplasm"; "both"])
      then (e = IndexError ∧ ¬ lengths_agree)
           ∨ (lengths_agree
              ∧ ((∃ x, x ∈ planes stack ∧ equalize_hist x = Raise e)
                 ∨ (compartment = "both"
                    ∧ ∃ a b, np_stack a b = Raise e)))
      else e = AssertionError
  end.
Proof.
  cbv zeta.
  case_bool_decide as Hin;
    [|unfold prepare_stack; by rewrite bool_decide_eq_false_2].
  assert ((length (planes stack) = length labels
           ∧ ∀ exclude, channel_exclude = Some exclude →
                        length exclude = length labels)
          ∨ (¬ (length (planes stack) = length labels
                ∧ ∀ exclude, channel_exclude = Some exclude →
                             length exclude = length labels)
             ∧ prepare_stack stack labels compartment channel_exclude
               = Raise IndexError)) as [[Hlen Hexc] | [Hno ->]];
    [|  |by left].
  { unfold prepare_stack. rewrite bool_decide_eq_true_2 by done. simpl.
    destruct channel_exclude as [exclude|].
    - destruct (decide (length (planes stack) = length exclude)) as [Hs|Hs];
        [|right; split;
          [intros [? Hexc]; specialize (Hexc _ eq_refl); congruence|];
          by rewrite (bool_index_raises (planes stack))
            by (by rewrite length_map)].
      destruct (decide (length labels = length exclude)) as [Hl|Hl];
        [|right; split;
          [intros [? Hexc]; specialize (Hexc _ eq_refl); congruence|];
          by rewrite (bool_index_ok (planes stack)),
            (bool_index_raises labels) by (by rewrite length_map)].
      left. split; [congruence|]. by intros ? [= <-].
    - destruct (decide (length (planes stack) = length labels)) as [Hs|Hs];
        [left; split; [done|]; by intros ? [=]|].
      right. split; [by intros [? _]|]. cbn [mbind res_bind].
      by rewrite (bool_index_raises (planes stack) (nuclear_chs labels))
        by (unfold nuclear_chs; by rewrite length_map). }
  rewrite (prepare_stack_indexed _ _ _ _ Hin Hlen Hexc). cbv zeta.
  assert (∀ x mask, x ∈ select (kept (planes stack) channel_exclude) mask →
                    x ∈ planes stack) as Hst.
  { intros x mask Hx. apply select_subseteq in Hx. unfold kept in Hx.
    destruct channel_exclude; [by apply select_subseteq in Hx | done]. }
  destruct (mapM equalize_hist (select _ (nuclear_chs _)))
    as [nuclear|e] eqn:Hn; cbn [mbind res_bind].
  2: { right. split; [done|]. left.
       apply mapM_Raise_inv in Hn as (x & Hx & Hfx).
       exists x. split; [by eapply Hst | done]. }
  destruct (decide (compartment = "nuclear")); [done|].
  destruct (mapM equalize_hist (select _ (map negb _)))
    as [cytoplasm|e] eqn:Hc; cbn [mbind res_bind].
  2: { right. split; [done|]. left.
       apply mapM_Raise_inv in Hc as (x & Hx & Hfx).
       exists x. split; [by eapply Hst | done]. }
  destruct (decide (compartment = "cytoplasm")); [done|].
  destruct (np_stack _ _) as [image|e] eqn:Hstack; [done|].
  right. split; [done|]. right. split; [|by eexists _, _].
  rewrite !elem_of_cons, elem_of_nil in Hin. tauto.
Qed.

(** X2 (excluding no channel changes nothing).  With exclusion flags
    that are all off, one per plane of the stack, [prepare_stack] gives the
    result, or the exception, of the call without flags. *)
Theorem prepare_stack_exclude_nothing (stack : Array) (labels : list string)
    (compartment : string) (exclude : list bool) :
  length exclude = length (planes stack) →
  Forall (λ b, b = false) exclude →
  prepare_stack stack labels compartment (Some exclude)
  = prepare_stack stack labels compartment None.
Proof.
  intros Hlen Hall. unfold prepare_stack.
  destruct (assert _); [|done]. simpl.
  rewrite (bool_index_ok (planes stack)) by (by rewrite length_map).
  simpl. rewrite (select_all (planes stack)) by done.
  destruct (decide (length labels = length exclude)) as [Hl|Hl].
  - rewrite (bool_index_ok labels) by (by rewrite length_map).
    simpl. by rewrite select_all.
  - rewrite (bool_index_raises labels) by (by rewrite length_map).
    rewrite (bool_index_raises (planes stack) (nuclear_chs labels))
      by (unfold nuclear_chs; rewrite length_map; congruence).
    done.
Qed.

End PrepareStackFacts.

Section DeepcellFacts.
Import Segmentation Writes.
Context {Array : Type} `{ArrayOps Array}.

(** X3 (deepcell_segment invokes one application).  [deepcell_segment]
    with a given compartment invokes exactly one application, the one of
    that compartment; with any other name it invokes none and raises
    UnboundLocalError. *)
Theorem deepcell_segment_invokes_one (image : Array) (compartment : string) :
  let run := deepcell_segment image (Some compartment) in
  run.1
  = (if decide (compartment = "nuclear") then [Invoke "NuclearSegmentation"]
     else if decide (compartment = "cytoplasm")
          then [Invoke "CytoplasmSegmentation"]
     else if decide (compartment = "both") then [Invoke "MultiplexSegmentation"]
     else [])
  ∧ (if bool_decide (compartment ∈ ["nuclear"; "cytoplasm"; "both"])
     then True else run.2 = Raise UnboundLocalError).
Proof.
  cbv zeta. unfold deepcell_segment, deepcell_app.
  destruct (decide (compartment = "nuclear")) as [->|Hn].
  { simpl. split; [|done]. case_decide; [|done]. unfold lift.
    by destruct (resize _ _). }
  destruct (decide (compartment = "cytoplasm")) as [->|Hc].
  { simpl. split; [|done]. case_decide; [|done]. unfold lift.
    by destruct (resize _ _). }
  destruct (decide (compartment = "both")) as [->|Hb].
  { simpl. split; [|done]. case_decide; [|done]. unfold lift.
    by destruct (resize _ _). }
  simpl. split; [done|].
  rewrite bool_decide_eq_false_2; [done|]. intros Hin.
  repeat (apply elem_of_cons in Hin as [?|Hin]; [done|]).
  by apply elem_of_nil in Hin.
Qed.

(** X4 (a stack without a nuclear channel).  For a ROI none of whose
    channel labels contains "DNA", [segment_roi] with the deepcell model
    and the nuclear compartment raises ValueError before any model is
    invoked and before anything is written: the mean of no plane, which
    numpy gives no axis, is refused by
    [deepcell_resize_to_predict_shape]. *)
Theorem segment_roi_without_nuclear_channel (roi : ROI Array)
    (save overwrite plot_segmentation : bool) stack labels :
  roi_stack roi = Ok stack →
  roi_channel_labels roi = Ok labels →
  length (planes stack) = length labels →
  (∀ exclude, roi_channel_exclude roi = Some exclude →
              length exclude = length labels) →
  Forall (λ l, contains "DNA" l = false) labels →
  shape (mean0 []) = [] →
  segment_roi roi "deepcell" "nuclear" save overwrite plot_segmentation
  = ([], Raise ValueError).
Proof.
  intros Hs Hl Hlen Hexc Hdna Hmean.
  assert (prepare_stack stack labels "nuclear" (roi_channel_exclude roi)
          = Ok (mean0 [])) as Hprep.
  { unfold prepare_stack. simpl.
    assert (∃ st ls,
      match roi_channel_exclude roi with
      | Some exclude =>
          stack' ← bool_index (planes stack) (map negb exclude);
          labels' ← bool_index labels (map negb exclude);
          Ok (stack', labels')
      | None => Ok (planes stack, labels)
      end = Ok (st, ls) ∧ length st = length ls
      ∧ Forall (λ l, contains "DNA" l = false) ls)
      as (st & ls & -> & Hst & Hls).
    { destruct (roi_channel_exclude roi) as [exclude|]; [|by eauto].
      specialize (Hexc exclude eq_refl).
      rewrite !bool_index_ok by (rewrite length_map; congruence).
      simpl. eexists _, _. split; [done|].
      split; [apply select_length_agree; congruence|].
      by apply select_Forall. }
    simpl. rewrite bool_index_ok
      by (unfold nuclear_chs; by rewrite length_map).
    simpl. rewrite select_none; [done|].
    unfold nuclear_chs. by apply Forall_fmap. }
  unfold segment_roi. simpl. rewrite Hs, Hl. simpl. rewrite Hprep. simpl.
  unfold deepcell_resize_to_predict_shape. rewrite Hmean. done.
Qed.

Lemma written_app l l' : written (l ++ l') = written l ++ written l'.
Proof. unfold written. apply omap_app. Qed.

Lemma written_bind {A B} (m : Run A) (f : A → Run B) (P : string → Prop) :
  Forall P (written m.1) →
  (∀ a, Forall P (written (f a).1)) →
  Forall P (written (m ≫= f).1).
Proof.
  intros Hm Hf. destruct m as [l [a|e]]; simpl; [|done].
  specialize (Hf a). destruct (f a) as [l' r]. simpl in *.
  rewrite written_app. by apply Forall_app.
Qed.

Lemma written_lift {A} (r : res A) (P : string → Prop) :
  Forall P (written (lift r).1).
Proof. constructor. Qed.

Lemma stardist_segment_nuclei_writes_nothing (image : Array) :
  written (stardist_segment_nuclei image).1 = [].
Proof.
  unfold stardist_segment_nuclei. by destruct (equalize_hist image).
Qed.

Lemma deepcell_segment_writes_nothing (image : Array) compartment :
  written (deepcell_segment image compartment).1 = [].
Proof.
  unfold deepcell_segment, deepcell_app.
  repeat (case_decide; simpl); try done;
    unfold lift; by destruct (resize _ _).
Qed.

Lemma save_masks_written roi overwrite (masks : list (string * Array)) :
  Forall (λ file, may_write roi overwrite file = true)
    (written (save_masks roi overwrite masks).1).
Proof.
  induction masks as [|[comp mask] masks IH]; [constructor|].
  cbn [save_masks]. apply written_bind; [apply written_lift|]. intros file.
  apply written_bind; [|done].
  destruct (may_write roi overwrite file) eqn:Hw; simpl; [|constructor].
  by repeat constructor.
Qed.

(** X5 (what segment_roi writes).  Every file that [segment_roi]
    writes, mask or figure, is written with [save] on; and with
    [overwrite] off, it is a file that does not exist. *)
Theorem segment_roi_written (roi : ROI Array) (model compartment : string)
    (save overwrite plot_segmentation : bool) :
  Forall (λ file, save = true
                  ∧ (overwrite = false → roi_path_exists roi file = false))
    (written (segment_roi roi model compartment save overwrite
                plot_segmentation).1).
Proof.
  assert (∀ file, save = true → may_write roi overwrite file = true →
                  save = true
                  ∧ (overwrite = false → roi_path_exists roi file = false))
    as Hmay.
  { intros file -> Hw. split; [done|]. intros ->. unfold may_write in Hw.
    simpl in Hw. by apply negb_true_iff in Hw. }
  unfold segment_roi.
  apply written_bind; [apply written_lift|]. intros _.
  apply written_bind; [apply written_lift|]. intros stack.
  apply written_bind; [apply written_lift|]. intros labels.
  apply written_bind; [apply written_lift|]. intros image.
  apply written_bind.
  { case_decide.
    - apply written_bind; [apply written_lift|]. intros _.
      by rewrite stardist_segment_nuclei_writes_nothing.
    - apply written_bind; [apply written_lift|]. intros input.
      apply written_bind; [by rewrite deepcell_segment_writes_nothing|].
      intros mask. apply written_bind.
      + case_decide; [apply written_lift | constructor].
      + intros mask'. case_decide; [apply written_lift | constructor]. }
  intros mask. apply written_bind; [apply written_lift|]. intros masks.
  apply written_bind.
  { destruct save; [|constructor].
    eapply Forall_impl; [apply save_masks_written|].
    intros file Hw. by apply Hmay. }
  intros _. apply written_bind; [|intros _; constructor].
  destruct plot_segmentation; [|constructor].
  apply written_bind; [constructor|]. intros _.
  destruct save; [|constructor].
  apply written_bind; [apply written_lift|]. intros stack_file. simpl.
  destruct (may_write roi overwrite _) eqn:Hw; [|constructor].
  simpl. repeat constructor; by apply Hmay.
Qed.

End DeepcellFacts.

Section ResizeFacts.
Import Segmentation.
Context {Array : Type} `{ArrayOps Array}.

(** What X6 takes from scikit-image and numpy: [resize] is defined on an
    image without an empty axis, for an output shape without a zero that
    has at least as many entries as the image has axes, or one fewer; and
    the shapes that moving an axis and adding axes give. *)
Hypothesis resize_nonempty :
  ∀ (a : Array) (s : list nat),
    length (shape a) ≤ length s + 1 →
    Forall (λ n, 0 < n) (shape a) → Forall (λ n, 0 < n) s →
    ∃ r, resize a s = Ok r ∧ shape r = resize_shape (shape a) s.
Hypothesis moveaxis_shape :
  ∀ a : Array, shape (moveaxis_0_last a) = tail (shape a) ++ take 1 (shape a).
Hypothesis newaxis_both_shape :
  ∀ a : Array, shape (newaxis_both a) = 1 :: shape a ++ [1].
Hypothesis newaxis_front_shape :
  ∀ a : Array, shape (newaxis_front a) = 1 :: shape a.

(** X6 (the input of the deepcell models).  For an image with two axes,
    neither of them empty, [deepcell_resize_to_predict_shape] returns a
    batch of one image of 256 by 256 with one channel; for an image with
    three axes, none of them empty, channels first, a batch of one image
    of 256 by 256 with those channels last; for an image with any other
    number of axes it raises ValueError. *)
Theorem deepcell_resize_to_predict_shape_outcome (image : Array) :
  match shape image with
  | [h; w] =>
      0 < h → 0 < w →
      ∃ r, deepcell_resize_to_predict_shape image = Ok r
           ∧ shape r = [1; 256; 256; 1]
  | [c; h; w] =>
      0 < c → 0 < h → 0 < w →
      ∃ r, deepcell_resize_to_predict_shape image = Ok r
           ∧ shape r = [1; 256; 256; c]
  | _ => deepcell_resize_to_predict_shape image = Raise ValueError
  end.
Proof.
  destruct (shape image) as [|c [|h [|w [|d s]]]] eqn:Hs.
  - unfold deepcell_resize_to_predict_shape. by rewrite Hs.
  - unfold deepcell_resize_to_predict_shape. by rewrite Hs.
  - intros Hc Hh. unfold deepcell_resize_to_predict_shape. rewrite Hs. simpl.
    destruct (resize_nonempty image [256; 256]) as (r & -> & Hr).
    + rewrite Hs. simpl. lia.
    + rewrite Hs. by repeat constructor.
    + repeat constructor; lia.
    + exists (newaxis_both r). split; [done|].
      by rewrite newaxis_both_shape, Hr, Hs.
  - intros Hc Hh Hw. unfold deepcell_resize_to_predict_shape. rewrite Hs.
    simpl.
    destruct (resize_nonempty (moveaxis_0_last image) [256; 256; c])
      as (r & -> & Hr).
    + rewrite moveaxis_shape, Hs. simpl. lia.
    + rewrite moveaxis_shape, Hs. by repeat constructor.
    + repeat constructor; lia.
    + exists (newaxis_front r). split; [done|].
      by rewrite newaxis_front_shape, Hr, moveaxis_shape, Hs.
  - unfold deepcell_resize_to_predict_shape. by rewrite Hs.
Qed.

End ResizeFacts.

Section WrittenFiles.
Import Segmentation Writes.
Context {Array : Type} `{ArrayOps Array}.

Lemma run_bind_Ok_inv {A B} (m : Run A) (f : A → Run B) log b :
  m ≫= f = (log, Ok b) →
  ∃ l a l', m = (l, Ok a) ∧ f a = (l', Ok b) ∧ log = l ++ l'.
Proof.
  destruct m as [l [a|e]]; simpl; [|done].
  destruct (f a) as [l' r] eqn:Hf. intros [= <- ->]. by eexists _, _, _.
Qed.

Lemma Forall_False_nil {A} (l : list A) : Forall (λ _, False) l → l = [].
Proof. by destruct 1. Qed.

Lemma lift_Ok_inv {A} (r : res A) l a :
  lift r = (l, Ok a) → r = Ok a ∧ l = [].
Proof. by intros [= <- ->]. Qed.

Lemma prepare_stack_Ok_compartment stack labels compartment exclude image :
  prepare_stack stack labels compartment exclude = Ok image →
  compartment ∈ ["nuclear"; "cytoplasm"; "both"].
Proof. unfold prepare_stack. by case_bool_decide. Qed.

Lemma save_masks_files roi overwrite (masks : list (string * Array))
    (name : string → string) log :
  (∀ t, roi_get_input_filename roi t = Ok (name t)) →
  save_masks roi overwrite masks = (log, Ok tt) →
  written log
  = List.filter (may_write roi overwrite)
      (map (λ m, name (m.1 +:+ "_mask")) masks).
Proof.
  intros Hname. revert log.
  induction masks as [|[comp mask] masks IH]; intros log Hlog.
  { by injection Hlog as <-. }
  cbn [save_masks] in Hlog. rewrite Hname, bind_lift_ok in Hlog.
  apply run_bind_Ok_inv in Hlog as (l & [] & l' & Hw & Hrest & ->).
  rewrite written_app, (IH _ Hrest). simpl.
  destruct (may_write roi overwrite _); by injection Hw as <-.
Qed.

(** The part of [segment_roi] that computes the mask writes nothing. *)
Lemma mask_run_writes_nothing (model compartment : string) (image : Array) :
  written
    (if decide (model = "stardist") then
       _ ← lift (assert (bool_decide (compartment = "nuclear")));
       stardist_segment_nuclei image
     else
       input_image ← lift (deepcell_resize_to_predict_shape image);
       mask ← deepcell_segment input_image (Some compartment);
       mask ← (if decide (length (shape image) = 2)
               then lift (resize mask (take 2 (shape image)))
               else mret mask);
       if decide (length (shape image) = 3)
       then lift (resize mask (take 2 (drop 1 (shape image)) ++ [2]))
       else mret mask).1
  = [].
Proof.
  apply (Forall_False_nil (A := string)). case_decide.
  - apply written_bind; [apply written_lift|]. intros _.
    by rewrite stardist_segment_nuclei_writes_nothing.
  - apply written_bind; [apply written_lift|]. intros input.
    apply written_bind; [by rewrite deepcell_segment_writes_nothing|].
    intros mask. apply written_bind.
    + case_decide; [apply written_lift | constructor].
    + intros mask'. case_decide; [apply written_lift | constructor].
Qed.

(** X7 (the files that segment_roi writes).  When [segment_roi] returns
    with [save] on, for a ROI that names its input files, it has written,
    in this order and each only if [overwrite] is on or the file does not
    exist: the cell mask and the nuclei mask for "both", the nuclei mask
    for "nuclear", the cell mask for "cytoplasm"; and then, when a figure
    is drawn, the figure, named like the stack with ".tiff" replaced by
    "_segmentation.svg". *)
Theorem segment_roi_files (roi : ROI Array) (model compartment : string)
    (overwrite plot_segmentation : bool) (name : string → string)
    (log : list event) (mask : Array) :
  (∀ t, roi_get_input_filename roi t = Ok (name t)) →
  segment_roi roi model compartment true overwrite plot_segmentation
  = (log, Ok mask) →
  written log
  = List.filter (may_write roi overwrite)
      ((if decide (compartment = "both")
        then [name "cell_mask"; name "nuclei_mask"]
        else if decide (compartment = "nuclear") then [name "nuclei_mask"]
        else [name "cell_mask"])
       ++ (if plot_segmentation
           then [replace ".tiff" "_segmentation.svg" (name "stack")]
           else [])).
Proof.
  intros Hname Hrun. unfold segment_roi in Hrun.
  apply run_bind_Ok_inv in Hrun as (l0 & [] & l0' & H0 & Hrun & ->).
  apply lift_Ok_inv in H0 as [_ ->].
  apply run_bind_Ok_inv in Hrun as (l1 & stack & l1' & H1 & Hrun & ->).
  apply lift_Ok_inv in H1 as [_ ->].
  apply run_bind_Ok_inv in Hrun as (l2 & labels & l2' & H2 & Hrun & ->).
  apply lift_Ok_inv in H2 as [_ ->].
  apply run_bind_Ok_inv in Hrun as (l3 & image & l3' & H3 & Hrun & ->).
  apply lift_Ok_inv in H3 as [Hprep ->].
  apply prepare_stack_Ok_compartment in Hprep.
  apply run_bind_Ok_inv in Hrun as (l4 & mask' & l4' & H4 & Hrun & ->).
  assert (written l4 = []) as Hnone.
  { change l4 with (l4, Ok mask' : res Array).1. rewrite <- H4.
    apply mask_run_writes_nothing. }
  apply run_bind_Ok_inv in Hrun as (l5 & masks & l5' & H5 & Hrun & ->).
  apply lift_Ok_inv in H5 as [Hdict ->].
  apply run_bind_Ok_inv in Hrun as (l6 & [] & l6' & H6 & Hrun & ->).
  apply (save_masks_files _ _ _ name _ Hname) in H6.
  apply run_bind_Ok_inv in Hrun as (l7 & [] & l7' & H7 & Hrun & ->).
  injection Hrun as <- _.
  rewrite !app_nil_l, app_nil_r, !written_app, Hnone, H6, List.filter_app.
  cbn [app]. f_equal.
  - f_equal. unfold mask_dict in Hdict.
    destruct (decide (compartment = "both")).
    + apply bind_Ok_inv in Hdict as (cell & _ & Hdict).
      apply bind_Ok_inv in Hdict as (nuclei & _ & Hdict).
      by injection Hdict as <-.
    + destruct (decide (compartment = "nuclear")).
      * by injection Hdict as <-.
      * rewrite decide_True in Hdict; [by injection Hdict as <-|].
        rewrite !elem_of_cons, elem_of_nil in Hprep. tauto.
  - destruct plot_segmentation; [|by injection H7 as <-].
    apply run_bind_Ok_inv in H7 as (l8 & [] & l8' & H8 & H7 & ->).
    injection H8 as <-.
    rewrite Hname, bind_lift_ok in H7. simpl.
    destruct (may_write roi overwrite _); by injection H7 as <-.
Qed.

End WrittenFiles.

Lemma prepare_stack_exclude_nothing_witness :
  Segmentation.prepare_stack Symbolic.example_stack Symbolic.example_labels
    "both" (Some [false; false])
  = Segmentation.prepare_stack Symbolic.example_stack Symbolic.example_labels
      "both" None.
Proof.
  apply prepare_stack_exclude_nothing.
  - reflexivity.
  - repeat constructor.
Defined.

Lemma segment_roi_without_nuclear_channel_witness :
  Segmentation.segment_roi Symbolic.unlabelled_roi "deepcell" "nuclear" true true true
  = ([], Raise ValueError).
Proof.
  apply (segment_roi_without_nuclear_channel Symbolic.unlabelled_roi true true true
           Symbolic.example_stack ["CD45(Sm152)"; "CD3(Er170)"]).
  - reflexivity.
  - reflexivity.
  - reflexivity.
  - intros exclude [= <-]. reflexivity.
  - repeat constructor.
  - reflexivity.
Defined.

Lemma deepcell_resize_to_predict_shape_outcome_witness :
  ∃ r, Segmentation.deepcell_resize_to_predict_shape (Symbolic.Input 0 [3; 4; 4])
       = Ok r
       ∧ Segmentation.shape r = [1; 256; 256; 3].
Proof.
  pose proof (deepcell_resize_to_predict_shape_outcome
                (Array := Symbolic.sym)
                (λ a s Hlen _ _,
                   Segmentation.resize_defined (Array := Symbolic.sym) a s
                     Hlen)
                Segmentation.shape_moveaxis_0_last
                Segmentation.shape_newaxis_both
                Segmentation.shape_newaxis_front
                (Symbolic.Input 0 [3; 4; 4])) as Houtcome.
  simpl in Houtcome. apply Houtcome; lia.
Defined.

Lemma segment_roi_files_witness :
  Writes.written
    (Segmentation.segment_roi Symbolic.example_roi "stardist" "nuclear"
       true false true).1
  = ["roi1_nuclei_mask.tiff"; "roi1_stack_segmentation.svg"].
Proof.
  apply (segment_roi_files Symbolic.example_roi "stardist" "nuclear" false
           true (λ t, "roi1_" +:+ t +:+ ".tiff")
           (Segmentation.segment_roi Symbolic.example_roi "stardist"
              "nuclear" true false true).1
           (Symbolic.PredictInstances "2D_versatile_fluo"
              (Symbolic.EqualizeHist
                 (Symbolic.Mean0
                    [Symbolic.EqualizeHist
                       (Symbolic.Plane Symbolic.example_stack 0)])))).
  - intros t. reflexivity.
  - reflexivity.
Defined.

(** ** Paths and the segment command *)

Section ReplaceFacts.

Lemma replace_from_unchanged (old new s : string) :
  contains old s = false → replace_from old new 0 s = s.
Proof.
  induction s as [|c s IH]; [done|].
  intros Hs. cbn [contains] in Hs. apply orb_false_iff in Hs as [Hp Hs].
  cbn [replace_from]. rewrite Hp. by rewrite (IH Hs).
Qed.

Lemma replace_unchanged (c : Ascii.ascii) (old new s : string) :
  contains (String c old) s = false → replace (String c old) new s = s.
Proof. apply replace_from_unchanged. Qed.

(** X8 (replace_ without an occurrence).  [Path.replace_] leaves a path
    in which the pattern does not occur as it is, whatever the pattern
    and the replacement. *)
Theorem replace_absent (old new s : string) :
  contains old s = false → replace old new s = s.
Proof.
  intros Hs. unfold replace. destruct old as [|c old].
  - assert (contains EmptyString s = true) as Hempty by (by destruct s).
    congruence.
  - by apply replace_from_unchanged.
Qed.

End ReplaceFacts.

Section CommandFacts.
Import Segmentation SegmentStacks Outputs.
Context {Array : Type} `{ArrayOps Array}.

(** X9 (the exclusion flags of the command).  The flags that the first
    loop of [main] hands to the segmentation, for patterns that
    [str.contains] reads as plain text: a channel is excluded when the
    flag that the new series starts out with is on, or when its label
    contains one of the patterns given with [--channel-exclude]. *)
Theorem exclude_channels_flags (labels patterns : list string) (fill : bool) :
  Forall plain_text patterns →
  exclude_channels labels patterns (map (λ _, fill) labels)
  = map (λ label, fill || existsb (λ ch, contains ch label) patterns) labels.
Proof.
  intros _. unfold exclude_channels.
  assert (∀ exc : string → bool,
    foldl (λ exc ch,
             zip_with (λ label e, if contains ch label then true else e)
                      labels exc)
          (map exc labels) patterns
    = map (λ label, exc label || existsb (λ ch, contains ch label) patterns)
          labels) as Hfold.
  { induction patterns as [|ch patterns IH]; intros exc; simpl.
    - apply map_ext. intros label. by rewrite orb_false_r.
    - assert (zip_with (λ label e, if contains ch label then true else e)
                labels (map exc labels)
              = map (λ label, contains ch label || exc label) labels) as ->.
      { clear IH. induction labels as [|l labels IHl]; simpl; [done|].
        rewrite IHl. by destruct (contains ch l). }
      rewrite (IH (λ label, contains ch label || exc label)).
      apply map_ext. intros label.
      destruct (contains ch label), (exc label); done. }
  exact (Hfold (λ _, fill)).
Qed.

Lemma cmd_bind_state {A B} (m : Cmd A) (f : A → Cmd B) (fs : FS Array)
    (P : FS Array → Prop) :
  P (m fs).2 →
  (∀ a, (m fs).1.2 = Ok a → P (m fs).2 → P (f a (m fs).2).2) →
  P ((m ≫= f) fs).2.
Proof.
  intros Hm Hf. unfold mbind, cmd_bind.
  destruct (m fs) as [[l [a|e]] fs1]; simpl in *; [|done].
  specialize (Hf a eq_refl Hm). by destruct (f a fs1) as [[l' r] fs2].
Qed.

Lemma cmd_bind_log {A B} (m : Cmd A) (f : A → Cmd B) (fs : FS Array)
    (P : string → Prop) :
  Forall P (figures (m fs).1.1) →
  (∀ a, (m fs).1.2 = Ok a → Forall P (figures (f a (m fs).2).1.1)) →
  Forall P (figures ((m ≫= f) fs).1.1).
Proof.
  intros Hm Hf. unfold mbind, cmd_bind.
  destruct (m fs) as [[l [a|e]] fs1]; simpl in *; [|done].
  specialize (Hf a eq_refl). destruct (f a fs1) as [[l' r] fs2]. simpl in *.
  unfold figures. rewrite omap_app. by apply Forall_app.
Qed.

Lemma call_segment_roi_figures roi args (fs : FS Array) :
  figures (call_segment_roi roi args fs).1.1 = [].
Proof.
  unfold call_segment_roi. destruct (segment_roi _ _ _ _ _ _) as [l r].
  simpl. induction l as [|e l IH]; done.
Qed.

Lemma prepare_rois_state fill args todo rois (fs : FS Array) :
  (prepare_rois fill args todo rois fs).2 = fs.
Proof.
  revert rois. induction todo as [|tiff todo IH]; intros rois; [done|].
  cbn [prepare_rois]. rewrite path_exists_bind.
  destruct (negb _).
  - apply (cmd_bind_state _ _ _ (λ fs', fs' = fs)); [done|].
    intros _ _ _. apply IH.
  - apply (cmd_bind_state _ _ _ (λ fs', fs' = fs)); [done|].
    intros labels _ _. apply IH.
Qed.

(** What [segment_one] leaves of the files that were there. *)
Lemma segment_one_keeps args roi (fs : FS Array) p x :
  overwrite args = false →
  fs !! p = Some x → (segment_one args roi fs).2 !! p = Some x.
Proof.
  intros Hov Hp. unfold segment_one.
  apply (cmd_bind_state _ _ _ (λ fs', fs' !! p = Some x)); [done|].
  intros stack _ _. change (imread (stack_file roi) fs).2 with fs.
  apply (cmd_bind_state _ _ _ (λ fs', fs' !! p = Some x)); [done|].
  intros _ _ _. change (print (Started (name roi) (shape stack)) fs).2 with fs.
  apply (cmd_bind_state _ _ _ (λ fs', fs' !! p = Some x));
    [by rewrite call_segment_roi_state|].
  intros mask _ _. rewrite call_segment_roi_state.
  apply (cmd_bind_state _ _ _ (λ fs', fs' !! p = Some x));
    [|by intros _ _ ?].
  destruct (save args); [|done]. cbv zeta.
  rewrite path_exists_bind, Hov. cbn [orb].
  set (mask_file := replace ".tiff" _ (stack_file roi)).
  apply (cmd_bind_state _ _ _ (λ fs', fs' !! p = Some x)).
  { case_bool_decide as Hthere; cbn [negb]; [exact Hp|].
    change (imwrite mask_file mask fs).2 with (<[mask_file := Tiff mask]> fs).
    unfold FS. rewrite lookup_insert_ne; [done|]. intros <-. apply Hthere. by eexists. }
  intros _ _.
  generalize ((if negb (bool_decide (is_Some (fs !! mask_file)))
               then imwrite mask_file mask else mret ()) fs).2.
  intros fs1 Hp1. destruct (plot args); [|done].
  rewrite path_exists_bind. cbn [negb andb].
  set (fig_file := replace "_full.tiff" _ (stack_file roi)).
  case_bool_decide as Hthere; cbn [negb]; [exact Hp1|].
  rewrite (cmd_bind_returns (print _) _ fs1 _ tt fs1 eq_refl).
  change (savefig fig_file fs1) with
    ([WriteFigure fig_file], Ok (), <[fig_file := Figure]> fs1).
  cbn [snd]. unfold FS. rewrite lookup_insert_ne; [done|].
  intros <-. apply Hthere. by eexists.
Qed.

Lemma segment_rois_keeps args rois (fs : FS Array) p x :
  overwrite args = false →
  fs !! p = Some x → (segment_rois args rois fs).2 !! p = Some x.
Proof.
  intros Hov. revert fs. induction rois as [|roi rois IH]; intros fs Hp;
    [done|].
  cbn [segment_rois].
  apply (cmd_bind_state _ _ _ (λ fs', fs' !! p = Some x)).
  - by apply segment_one_keeps.
  - intros _ _ Hone. by apply IH.
Qed.

(** X10 (without --overwrite existing files are kept).  Without
    [--overwrite] the command changes no file that exists: what was at a
    path before the run is there after it, whether the run ends or
    raises. *)
Theorem main_keeps_existing_files fill args (fs : FS Array) p x :
  overwrite args = false →
  fs !! p = Some x → (main fill args fs).2 !! p = Some x.
Proof.
  intros Hov Hp. unfold main.
  apply (cmd_bind_state _ _ _ (λ fs', fs' !! p = Some x)); [done|].
  intros _ _ _.
  change (print (Starting (length (tiffs args)) (tiffs args)) fs).2 with fs.
  apply (cmd_bind_state _ _ _ (λ fs', fs' !! p = Some x));
    [by rewrite prepare_rois_state|].
  intros rois _ _. rewrite prepare_rois_state.
  apply (cmd_bind_state _ _ _ (λ fs', fs' !! p = Some x));
    [by apply segment_rois_keeps|].
  intros _ _ Hrois.
  by apply (cmd_bind_state _ _ _ (λ fs', fs' !! p = Some x)).
Qed.

Lemma segment_one_no_save args roi (fs : FS Array) :
  save args = false → (segment_one args roi fs).2 = fs.
Proof.
  intros Hsave. unfold segment_one.
  apply (cmd_bind_state _ _ _ (λ fs', fs' = fs)); [done|].
  intros stack _ _. change (imread (stack_file roi) fs).2 with fs.
  apply (cmd_bind_state _ _ _ (λ fs', fs' = fs)); [done|].
  intros _ _ _. change (print (Started (name roi) (shape stack)) fs).2 with fs.
  apply (cmd_bind_state _ _ _ (λ fs', fs' = fs));
    [by rewrite call_segment_roi_state|].
  intros mask _ _. rewrite call_segment_roi_state.
  apply (cmd_bind_state _ _ _ (λ fs', fs' = fs)); [|by intros _ _ ?].
  by rewrite Hsave.
Qed.

Lemma segment_rois_no_save args rois (fs : FS Array) :
  save args = false → (segment_rois args rois fs).2 = fs.
Proof.
  intros Hsave. induction rois as [|roi rois IH]; [done|].
  cbn [segment_rois].
  apply (cmd_bind_state _ _ _ (λ fs', fs' = fs)).
  - by apply segment_one_no_save.
  - intros _ _ ->. apply IH.
Qed.

(** X11 (--no-save writes nothing).  With [--no-save] the files after
    the run are the files before it. *)
Theorem main_no_save_writes_nothing fill args (fs : FS Array) :
  save args = false → (main fill args fs).2 = fs.
Proof.
  intros Hsave. unfold main.
  apply (cmd_bind_state _ _ _ (λ fs', fs' = fs)); [done|].
  intros _ _ _.
  change (print (Starting (length (tiffs args)) (tiffs args)) fs).2 with fs.
  apply (cmd_bind_state _ _ _ (λ fs', fs' = fs));
    [by rewrite prepare_rois_state|].
  intros rois _ _. rewrite prepare_rois_state.
  apply (cmd_bind_state _ _ _ (λ fs', fs' = fs));
    [by apply segment_rois_no_save|].
  intros _ _ Hrois.
  by apply (cmd_bind_state _ _ _ (λ fs', fs' = fs)).
Qed.

(** X12 (the figure of a stack not named *_full.tiff).  For a stack
    whose path does not contain "_full.tiff" the figure has the path of
    the stack itself: the segmentation loop writes it only with
    [--overwrite], and then over the stack. *)
Theorem figure_of_stack_without_full_suffix args roi (fs : FS Array) :
  contains "_full.tiff" (stack_file roi) = false →
  Forall (λ file, file = stack_file roi ∧ overwrite args = true)
    (figures (segment_one args roi fs).1.1).
Proof.
  intros Hname. unfold segment_one.
  apply cmd_bind_log; [constructor|].
  intros stack Hstack. change (imread (stack_file roi) fs).2 with fs.
  assert (is_Some (fs !! stack_file roi)) as Hthere.
  { unfold imread in Hstack. simpl in Hstack.
    destruct (fs !! stack_file roi); [by eexists | done]. }
  apply cmd_bind_log; [constructor|].
  intros _ _. change (print _ fs).2 with fs.
  apply cmd_bind_log; [by rewrite call_segment_roi_figures|].
  intros mask _. rewrite call_segment_roi_state.
  apply cmd_bind_log; [|intros _ _; constructor].
  destruct (save args); [|constructor]. cbv zeta.
  rewrite path_exists_bind.
  set (mask_file := replace ".tiff" _ (stack_file roi)).
  apply cmd_bind_log.
  { destruct (_ || _); constructor. }
  intros _ _.
  assert (is_Some (((if overwrite args
                        || negb (bool_decide (is_Some (fs !! mask_file)))
                     then imwrite mask_file mask else mret ()) fs).2
                   !! stack_file roi)) as Hstill.
  { destruct (_ || _); [|done].
    change (imwrite mask_file mask fs).2 with (<[mask_file := Tiff mask]> fs).
    unfold FS. rewrite lookup_insert_is_Some.
    destruct (decide (mask_file = stack_file roi)); auto. }
  revert Hstill.
  generalize ((if overwrite args
                  || negb (bool_decide (is_Some (fs !! mask_file)))
               then imwrite mask_file mask else mret ()) fs).2.
  intros fs1 Hthere1. destruct (plot args); [|constructor].
  rewrite path_exists_bind, (replace_unchanged _ _ _ _ Hname).
  rewrite (bool_decide_eq_true_2 _ Hthere1). cbn [negb]. rewrite andb_false_r.
  destruct (overwrite args); [|constructor].
  simpl. by repeat constructor.
Qed.

End CommandFacts.

Lemma exclude_channels_flags_witness :
  SegmentStacks.exclude_channels Symbolic.example_labels ["CD45"; "Ki67"]
    [false; false]
  = [false; true].
Proof.
  apply (exclude_channels_flags Symbolic.example_labels ["CD45"; "Ki67"]
           false).
  repeat constructor; intros Hin; apply list_elem_of_In in Hin; simpl in Hin;
    repeat (destruct Hin as [Hin | Hin]; [discriminate Hin|]); destruct Hin.
Defined.

Lemma replace_absent_witness :
  replace ".tiff" ".csv" "s1/tiffs/roi1.tif" = "s1/tiffs/roi1.tif".
Proof. apply replace_absent. reflexivity. Defined.

Lemma main_keeps_existing_files_witness :
  (SegmentStacks.main false SegmentStacks.example_args
     SegmentStacks.example_files).2 !! "s1/tiffs/roi1_full.tiff"
  = Some (SegmentStacks.Tiff Symbolic.example_stack).
Proof.
  apply main_keeps_existing_files.
  - reflexivity.
  - reflexivity.
Defined.

(** ** Choosing ROIs and input files; the cluster methods *)

Section SelectionFacts.
Import Pandas Project.
Context {Sample ROI : Type} {Samples : SampleClass Sample ROI}
        `{EqDecision ROI}.

Lemma filter_all {A} (f : A → bool) (l : list A) :
  (∀ x, x ∈ l → f x = true) → List.filter f l = l.
Proof.
  induction l as [|x l IH]; intros Hall; [done|].
  simpl. rewrite (Hall x) by (by left). f_equal. apply IH.
  intros y Hy. apply Hall. by right.
Qed.

(** X13 (which ROIs _get_rois chooses).  [_get_rois] gives the ROIs of
    the chosen samples, in the order of the samples, that are among the
    chosen ROIs; a chosen ROI of no chosen sample is left out.  An empty
    list is no choice: with [samples] and [rois] both left out, or both
    empty, the result is [self.rois]. *)
Theorem get_rois_selection (self : Project Sample)
    (samples : option (list Sample)) (rois : option (list ROI)) :
  _get_rois self samples rois
  = List.filter (λ r, match rois with
                      | Some (r0 :: l) => bool_decide (r ∈ r0 :: l)
                      | _ => true
                      end)
      (concat (map sample_rois (list_or samples (Project.samples self))))
  ∧ _get_rois self None None = Project.rois self
  ∧ _get_rois self (Some []) (Some []) = Project.rois self.
Proof.
  assert (∀ samples rois,
    _get_rois self samples rois
    = List.filter (λ r, match rois with
                        | Some (r0 :: l) => bool_decide (r ∈ r0 :: l)
                        | _ => true
                        end)
        (concat (map sample_rois (list_or samples (Project.samples self)))))
    as Hform.
  { clear samples rois. intros samples rois. unfold _get_rois.
    induction (list_or samples (Project.samples self)) as [|s l IH]; [done|].
    rewrite bind_cons, IH. simpl. rewrite List.filter_app. f_equal.
    destruct rois as [[|r0 rois]|]; [| done |].
    - rewrite !filter_all; [done | done |].
      intros r Hr. by apply bool_decide_eq_true_2.
    - rewrite !filter_all; [done | done |].
      intros r Hr. by apply bool_decide_eq_true_2. }
  split; [apply Hform|].
  split; rewrite Hform; by apply filter_all.
Qed.

Lemma path_div_name (base : Path) (file : string) :
  file ≠ EmptyString → file ≠ "." → contains "/" file = false →
  path_div base file = base ++ [file].
Proof.
  intros Hne Hdot Hfile.
  assert (String.prefix "/" file = false) as Hprefix.
  { destruct file as [|c f]; [done|].
    apply contains_slash_cons in Hfile as [Hc _].
    rewrite prefix_slash_cons. by apply bool_decide_eq_false. }
  unfold path_div. rewrite Hprefix.
  unfold path_parts. rewrite (split_on_no_slash _ Hfile). simpl.
  by rewrite !bool_decide_eq_false_2.
Qed.

(** X14 (input file names of the project).  [_get_input_filename]
    knows two input types, "h5ad" and "cell_cluster_assignments", and
    raises KeyError for any other; both files are named after the project
    and, when the project name has no slash, lie in the directory
    [single_cell] of the results directory. *)
Theorem get_input_filename_outcome (self : Project Sample)
    (input_type : string) :
  match _get_input_filename self input_type with
  | Raise e => e = KeyError ∧ input_type ∉ ["h5ad"; "cell_cluster_assignments"]
  | Ok file =>
      input_type ∈ ["h5ad"; "cell_cluster_assignments"]
      ∧ (input_type = "cell_cluster_assignments" →
         file = cluster_assignments_file self)
      ∧ (no_slash (name self) →
         parent file = results_dir self ++ ["single_cell"]
         ∧ ∃ suffix, List.last file EmptyString = name self +:+ suffix)
  end.
Proof.
  unfold _get_input_filename, to_read.
  destruct (decide (input_type = "h5ad")) as [->|Hh].
  { rewrite lookup_insert_eq. simpl.
    split; [rewrite !elem_of_cons; tauto|]. split; [done|].
    intros Hname. rewrite path_div_name.
    - unfold parent. rewrite removelast_last, last_last. eauto.
    - by destruct (name self).
    - by destruct (name self) as [|? [|]].
    - by apply contains_slash_app. }
  rewrite lookup_insert_ne by done.
  destruct (decide (input_type = "cell_cluster_assignments")) as [->|Hc].
  { rewrite lookup_insert_eq. simpl.
    split; [rewrite !elem_of_cons; tauto|]. split; [done|].
    intros Hname. rewrite path_div_name.
    - unfold parent. rewrite removelast_last, last_last. eauto.
    - by destruct (name self).
    - by destruct (name self) as [|? [|]].
    - by apply contains_slash_app. }
  rewrite lookup_insert_ne by done. rewrite lookup_empty. simpl.
  split; [done|]. rewrite !elem_of_cons, elem_of_nil. tauto.
Qed.

End SelectionFacts.

Section ClusterMethods.
Import Pandas Project.
Context {Sample ROI : Type} {Samples : SampleClass Sample ROI}
        {Tuples : Project.GroupsOfTuples}.

Lemma mkdir_Ok_inv p fs fs1 :
  mkdir p fs = Ok fs1 →
  path_exists fs p = false ∧ is_dir fs (parent p) = true
  ∧ fs1 = {| dirs := {[p]} ∪ dirs fs; files := files fs |}.
Proof.
  unfold mkdir. intros Hm.
  destruct (path_exists fs p); [done|].
  destruct (is_dir fs (parent p)); [by simplify_eq|].
  by destruct (path_exists fs (parent p)).
Qed.

Lemma write_csv_Ok_inv p file fs fs2 :
  write_csv p file fs = Ok fs2 →
  is_dir fs (parent p) = true
  ∧ fs2 = {| dirs := dirs fs; files := <[p := file]> (files fs) |}.
Proof.
  unfold write_csv. intros Hw.
  destruct (is_dir fs p); [done|].
  destruct (is_dir fs (parent p)); [by simplify_eq|].
  by destruct (path_exists fs (parent p)).
Qed.

(** X15 (cluster_cells never sets the attribute).  [cluster_cells] with
    [set_attribute] on (the default) never returns: when the cluster file
    cannot be written it raises what the writing raises; once the file is
    written its directory exists, and the [fn.parent.mkdir()] of
    [set_clusters] raises FileExistsError.  The project is left as it
    was. *)
Theorem cluster_cells_set_attribute_raises (clusters : Series)
    (prj : Project Sample) (fs : FS) :
  cluster_cells clusters true (prj, fs)
  = match (file ← write_clusters clusters;
           write_csv (cluster_assignments_file prj) file fs) with
    | Ok fs2 => (Raise FileExistsError, (prj, fs2))
    | Raise e => (Raise e, (prj, fs))
    end.
Proof.
  unfold cluster_cells. unfold mbind at 1 2 3, method_bind, self, lift,
    on_files. simpl.
  destruct (write_clusters clusters) as [file|e]; [|done]. simpl.
  destruct (write_csv _ file fs) as [fs2|e] eqn:Hw; [|done]. simpl.
  unfold mbind, method_bind.
  rewrite (set_clusters_steps (Some (astype_str clusters)) false None prj fs2).
  unfold mkdir_outcome. rewrite mkdir_existing; [done|].
  apply write_csv_Ok_inv in Hw as [Hdir ->].
  unfold path_exists. apply orb_true_iff. left.
  unfold is_dir in *. simpl. done.
Qed.

(** Once [cluster_cells] has written the cluster file, [set_clusters]
    cannot read it: the directory of the file exists, and
    [fn.parent.mkdir()] raises before [pd.read_csv] is reached. *)
Lemma set_clusters_after_cluster_cells (clusters : Series)
    (write_to_disk : bool) (samples : option (list Sample))
    (prj : Project Sample) (fs : FS) r st :
  cluster_cells clusters false (prj, fs) = (Ok r, st) →
  r = Some clusters
  ∧ (∃ file, write_clusters clusters = Ok file
             ∧ open_csv (cluster_assignments_file prj) st.2 = Ok file)
  ∧ set_clusters None write_to_disk samples st = (Raise FileExistsError, st).
Proof.
  unfold cluster_cells. unfold mbind, method_bind, self, lift, on_files.
  simpl.
  destruct (write_clusters clusters) as [file|e]; [|done]. simpl.
  destruct (write_csv _ file fs) as [fs2|e] eqn:Hw; [|done]. simpl.
  intros [= <- <-]. split; [done|].
  apply write_csv_Ok_inv in Hw as [Hdir ->]. split.
  - exists file. split; [done|]. unfold open_csv. simpl.
    by rewrite lookup_insert_eq.
  - rewrite (set_clusters_steps None write_to_disk samples prj).
    unfold mkdir_outcome. rewrite mkdir_existing; [done|].
    unfold path_exists. apply orb_true_iff. left.
    unfold is_dir in *. simpl. done.
Qed.

Lemma clusters_steps (prj : Project Sample) (fs : FS) :
  Project.clusters (prj, fs)
  = match _clusters prj with
    | Some c => (Ok (Some c), (prj, fs))
    | None =>
        match set_clusters None false None (prj, fs) with
        | (Ok _, st) => (Ok (_clusters st.1), st)
        | (Raise e, st) => (Raise e, st)
        end
    end.
Proof.
  unfold Project.clusters, mbind, method_bind, self. simpl.
  destruct (_clusters prj) as [c|]; [done|].
  by destruct (set_clusters None false None (prj, fs)) as [[[]|e] st].
Qed.

(** X16 (the clusters property).  [clusters] gives back the clusters
    that are set, without a look at the files.  When none are set, on
    files that lie in directories, it raises and leaves the project as it
    was: either the directory of the cluster file exists and
    [fn.parent.mkdir()] raises, or it does not and there is no file to
    read. *)
Theorem clusters_cold_start_raises (prj : Project Sample) (fs : FS) :
  files_in_directories fs →
  match _clusters prj with
  | Some c => Project.clusters (prj, fs) = (Ok (Some c), (prj, fs))
  | None =>
      is_ok (Project.clusters (prj, fs)).1 = false
      ∧ (Project.clusters (prj, fs)).2.1 = prj
  end.
Proof.
  intros Hfiles. rewrite clusters_steps.
  destruct (_clusters prj) as [c|]; [done|].
  rewrite (set_clusters_steps None false None prj fs).
  unfold mkdir_outcome.
  destruct (mkdir _ fs) as [fs1|e] eqn:Hm; [|done].
  apply mkdir_Ok_inv in Hm as (Hnew & _ & ->).
  assert (files fs !! cluster_assignments_file prj = None) as Hnone.
  { destruct (files fs !! cluster_assignments_file prj) as [file|] eqn:Hf;
      [|done].
    apply Hfiles in Hf. unfold path_exists in Hnew. by rewrite Hf in Hnew. }
  unfold open_csv. simpl. rewrite Hnone. simpl.
  by destruct (is_dir _ _).
Qed.

(** X17 (when set_clusters returns).  When [set_clusters] returns for
    a given series: the directory of the cluster file was not there
    before and is there now, the series has the index
    [sample, roi, obj_id] and is the [_clusters] of the project; with
    [write_to_disk] the cluster file holds the series, and otherwise no
    file has changed. *)
Theorem set_clusters_returns (clusters : Series) (write_to_disk : bool)
    (samples : option (list Sample)) (prj prj' : Project Sample)
    (fs fs' : FS) :
  set_clusters (Some clusters) write_to_disk samples (prj, fs)
  = (Ok tt, (prj', fs')) →
  let fn := cluster_assignments_file prj in
  path_exists fs (parent fn) = false
  ∧ is_dir fs' (parent fn) = true
  ∧ conforming clusters
  ∧ prj' = with_clusters prj clusters
  ∧ (if write_to_disk
     then ∃ file, write_clusters clusters = Ok file
                  ∧ open_csv fn fs' = Ok file
     else files fs' = files fs).
Proof.
  rewrite (set_clusters_steps (Samples:=Samples)). unfold mkdir_outcome. intros Hset. cbv zeta.
  destruct (mkdir _ fs) as [fs1|e] eqn:Hm; [|done].
  apply mkdir_Ok_inv in Hm as (Hnew & _ & ->).
  destruct (_ && _) eqn:Hok; [|done].
  apply conforming_checked in Hok.
  destruct (propagate_clusters _ _) as [[]|]; [|done].
  assert (∀ files,
    is_dir {| dirs := {[parent (cluster_assignments_file prj)]} ∪ dirs fs;
              files := files |}
           (parent (cluster_assignments_file prj)) = true) as Hdir.
  { intros files. unfold is_dir. simpl. apply bool_decide_eq_true_2.
    right. set_solver. }
  destruct write_to_disk.
  - destruct (write_clusters clusters) as [file|]; [|done].
    destruct (write_csv _ file _) as [fs2|] eqn:Hw; [|done].
    apply write_csv_Ok_inv in Hw as [_ ->]. simplify_eq.
    split; [done|]. split; [apply Hdir|]. split; [done|]. split; [done|].
    exists file. split; [done|]. unfold open_csv. simpl.
    by rewrite lookup_insert_eq.
  - simplify_eq. split; [done|]. split; [apply Hdir|]. done.
Qed.

End ClusterMethods.

(** C1 (the cluster file gives the assignments back).  On a project
    whose results directory holds [single_cell], [cluster_cells] (here
    with [set_attribute=False]) writes the cluster assignments to the
    cluster file and returns them; [set_clusters()] then does not read
    them back, and neither does the [clusters] property: both raise
    FileExistsError at [fn.parent.mkdir()], and the project has no
    clusters. *)
Theorem cluster_file_is_not_read_back :
  let written :=
    Project.cluster_cells (Samples := Project.plain_samples)
      Project.named_clusters false
      (Project.example_project, Project.example_fs) in
  written.1 = Ok (Some Project.named_clusters)
  ∧ (file ← Project.open_csv
              (Project.cluster_assignments_file Project.example_project)
              written.2.2;
     Ok (Pandas.header file, Pandas.records file))
    = Ok (["sample"; "roi"; "obj_id"; "cluster"],
          [["s1"; "roi1"; "1"; "1 - T cells"]; ["s1"; "roi1"; "2"; "2"]])
  ∧ Project.set_clusters (Samples := Project.plain_samples) None false None
      written.2
    = (Raise FileExistsError, written.2)
  ∧ Project.clusters (Samples := Project.plain_samples) written.2
    = (Raise FileExistsError, written.2)
  ∧ Project._clusters written.2.1 = None.
Proof.
  cbv zeta.
  destruct (Project.cluster_cells (Samples := Project.plain_samples)
              Project.named_clusters false
              (Project.example_project, Project.example_fs))
    as [r st] eqn:Hcells.
  assert (r = Ok (Some Project.named_clusters)
          ∧ st.1 = Project.example_project) as [-> Hprj].
  { vm_compute in Hcells. by injection Hcells as <- <-. }
  destruct (set_clusters_after_cluster_cells Project.named_clusters false
              None Project.example_project Project.example_fs _ _ Hcells)
    as (_ & (file & Hfile & Hopen) & Hset).
  destruct st as [prj fs]. simpl in Hprj. subst prj.
  split; [done|]. split.
  - cbn [fst snd] in Hopen |- *. rewrite Hopen.
    vm_compute in Hfile. by injection Hfile as <-.
  - split; [exact Hset|]. split; [|done].
    cbn [fst snd] in Hset |- *.
    rewrite (clusters_steps (Samples := Project.plain_samples)
               Project.example_project fs).
    simpl. by rewrite Hset.
Qed.

(** ** Samples found on disk *)

Section DetectionFacts.
Import Pandas Project.
Context {Sample ROI : Type} {Samples : SampleClass Sample ROI}
        {Tuples : Project.GroupsOfTuples}.

Lemma unique_NoDup_id {A} `{EqDecision A} (l : list A) :
  NoDup l → unique l = l.
Proof.
  induction l as [|x l IH] using rev_ind; [done|].
  intros Hl. apply NoDup_app in Hl as (Hl & Hx & _).
  rewrite unique_snoc, IH by done. f_equal.
  rewrite decide_False; [done|]. intros Hin. apply (Hx x Hin). by left.
Qed.

Lemma indices_of_NoDup (keys : list (list value)) (i : nat)
    (key : list value) :
  NoDup keys → keys !! i = Some key → indices_of key keys = [i].
Proof.
  induction keys as [|k keys IH] using rev_ind; [done|].
  intros Hkeys Hi. apply NoDup_app in Hkeys as (Hkeys & Hk & _).
  rewrite indices_of_snoc.
  destruct (decide (i < length keys)) as [Hlt | Hge].
  - rewrite lookup_app_l in Hi by done. rewrite (IH Hkeys Hi).
    rewrite decide_False; [done|]. intros ->.
    apply (Hk k); [by eapply list_elem_of_lookup_2 | by left].
  - rewrite lookup_app_r in Hi by lia.
    destruct (i - length keys) as [|n] eqn:Hn; simpl in Hi; [|done].
    injection Hi as ->. rewrite decide_True by done.
    rewrite indices_of_absent.
    + simpl. f_equal. lia.
    + intros Hin. apply (Hk key Hin). by left.
Qed.

Lemma mapM_res_map {A B C} (f : B → res C) (h : A → B) (g : A → C)
    (l : list A) :
  (∀ x, x ∈ l → f (h x) = Ok (g x)) → mapM f (map h l) = Ok (map g l).
Proof.
  induction l as [|x l IH]; intros Hf; [done|].
  cbn [map mapM]. rewrite (Hf x) by (by left). simpl.
  rewrite IH; [done|]. intros y Hy. apply Hf. by right.
Qed.

(** X18 (samples found in the processed directory).  A project without
    a metadata table finds its samples in [processed_dir]: with the
    default grouping, and names that are distinct once "_full.tiff" is
    taken out of them, the initialization adds one sample per
    sub-directory (or per entry named [*_full.tiff] when samples have no
    folder of their own), in the order of the listing, named after the
    entry, without a metadata table and with the keyword arguments of the
    caller; a directory that is missing or empty adds none. *)
Theorem samples_of_processed_dir (self : Project Sample) (dir_ : listing)
    (toggle : option bool) (kwargs : gmap string value)
    (content : list string) :
  let names := map (replace "_full.tiff" EmptyString) content in
  metadata self = None →
  sample_name_attribute self = "sample_name" →
  sample_grouping_attributes self = ["sample_name"] →
  (∀ k, k ∈ sample_keywords → kwargs !! k = None) →
  detected_content self dir_ = Ok content →
  NoDup names →
  ∃ detected,
    _detect_samples self dir_ = Ok detected
    ∧ _initialize_project_from_annotation self detected toggle None kwargs
      = Ok (samples self
            ++ map (λ n, IMCSample {|
                      arg_sample_name := VStr n;
                      arg_root_dir :=
                        if subfolder_per_sample self
                        then path_div (processed_dir self) n
                        else processed_dir self;
                      arg_subfolder_per_sample := subfolder_per_sample self;
                      arg_metadata := None;
                      arg_panel_metadata := panel_metadata self;
                      arg_kwargs := kwargs |}) names).
Proof.
  intros names Hmeta Hattr Hgroup Hkw Hcontent Hnames.
  unfold _detect_samples. rewrite Hcontent. simpl.
  destruct (decide (content = [])) as [-> | Hne].
  { eexists. split; [done|].
    unfold _initialize_project_from_annotation. rewrite Hmeta. simpl.
    by rewrite app_nil_r. }
  eexists. split; [done|].
  unfold _initialize_project_from_annotation. rewrite Hmeta.
  cbn [default].
  assert (map (λ x, VStr (replace "_full.tiff" EmptyString x)) content
          = map VStr names) as Hcol by (unfold names; by rewrite map_map).
  set (df := [(DEFAULT_SAMPLE_NAME_ATTRIBUTE,
               map (λ x, VStr (replace "_full.tiff" EmptyString x)) content)]).
  assert (df_empty df = false) as ->.
  { unfold df_empty, df. simpl. rewrite length_map.
    destruct content; [done|]. done. }
  assert (kept_rows self df toggle = Ok df) as ->.
  { unfold kept_rows. rewrite (bool_decide_eq_false_2 (_ ∈ _)).
    - by rewrite andb_false_r.
    - unfold df. simpl. rewrite list_elem_of_singleton. done. }
  cbn [mbind res_bind].
  assert (grouping_attributes self None df = ["sample_name"]) as ->.
  { unfold grouping_attributes. by rewrite Hgroup. }
  set (keys := map (λ n, [VStr n]) names).
  assert (group_keys ["sample_name"] df = Ok keys) as ->.
  { unfold group_keys, df. simpl. f_equal. rewrite Hcol.
    rewrite (map_nth_seq (λ v, [v])). unfold keys. by rewrite map_map. }
  cbn [mbind res_bind groupby_groups]. rewrite groups_of_spec.
  assert (NoDup keys) as Hkeys.
  { unfold keys. apply NoDup_fmap_2; [|done]. by intros ? ? [=]. }
  assert (List.filter complete keys = keys) as ->.
  { assert (∀ n, complete [VStr n] = true) as Hc.
    { intros n. unfold complete. apply negb_true_iff, bool_decide_eq_false_2.
      rewrite list_elem_of_singleton. done. }
    unfold keys. clear -Hc. induction names as [|n names IH]; [done|].
    cbn [map List.filter]. by rewrite Hc, IH. }
  rewrite unique_NoDup_id by done.
  assert (map (λ key, (key, indices_of key keys)) keys
          = map (λ n, ([VStr n], indices_of [VStr n] keys)) names) as ->.
  { exact (map_map (λ n, [VStr n])
                   (λ key, (key, indices_of key keys)) names). }
  rewrite (mapM_res_map _ _
             (λ n, IMCSample {|
                      arg_sample_name := VStr n;
                      arg_root_dir :=
                        if subfolder_per_sample self
                        then path_div (processed_dir self) n
                        else processed_dir self;
                      arg_subfolder_per_sample := subfolder_per_sample self;
                      arg_metadata := None;
                      arg_panel_metadata := panel_metadata self;
                      arg_kwargs := kwargs |})); [done|].
  intros n Hn. simpl.
  apply list_elem_of_lookup in Hn as [i Hi].
  rewrite (indices_of_NoDup keys i) by
    (done || (unfold keys; by rewrite list_lookup_fmap, Hi)).
  unfold sample_of_group.
  assert (loc_rows [i] df = [("sample_name", [VStr n])]) as ->.
  { unfold loc_rows, df. simpl. do 3 f_equal. rewrite Hcol.
    apply nth_lookup_Some. by rewrite list_lookup_fmap, Hi. }
  assert (const_row [("sample_name", [VStr n])]
          = <["sample_name" := VStr n]> ∅) as ->.
  { done. }
  cbv zeta. rewrite Hattr, lookup_insert_eq. simpl.
  rewrite delete_insert_eq, delete_empty.
  assert (keywords_distinct kwargs ∅ = true) as ->.
  { apply andb_true_iff. split.
    - apply bool_decide_eq_true_2. rewrite dom_empty_L. set_solver.
    - apply forallb_forall. intros k Hk. apply list_elem_of_In in Hk.
      apply bool_decide_eq_true_2. rewrite dom_empty_L, elem_of_union.
      rewrite elem_of_dom, (Hkw k Hk). intros [[? ?] | ?%elem_of_empty]; done. }
  simpl. by rewrite (right_id_L ∅ (∪)).
Qed.

End DetectionFacts.

(** ** The ilastik model script *)

Section IlastikFacts.
Import Ilastik.
Context {File Dataset : Type} `{H5py File Dataset}.


(** X20 (convert_model_data never returns).  Whatever the model and
    whatever h5py does, [convert_model_data] raises: when the copy is
    made, the file opens and holds data, and the first dataset is
    deleted, the statement [from imc.segmentation import normalize]
    raises ImportError, for [imc/segmentation.py] binds no such name; and
    before that statement the function can only raise as well. *)
Theorem convert_model_data_raises (input_model_path : string)
    (output_model_path : option string) (channels_to_retain : list Z)
    (fs : Files) :
  convert_model_data input_model_path output_model_path channels_to_retain
    fs ≠ inr tt
  ∧ ∀ out fs' f k v rest f',
      copy_model input_model_path output_model_path fs = (Ok out, fs') →
      h5_open (default EmptyString (fs' !! out)) = inr f →
      local_data f = inr ((k, v) :: rest) →
      delete_local_data f k = inr f' →
      convert_model_data input_model_path output_model_path
        channels_to_retain fs
      = inl (ImportError "imc.segmentation" "normalize").
Proof.
  unfold convert_model_data, change_input_data.
  assert (from_segmentation_import "normalize"
          = inl (ImportError "imc.segmentation" "normalize")) as ->.
  { unfold from_segmentation_import. apply decide_False.
    unfold segmentation_names. rewrite !elem_of_cons, elem_of_nil.
    intros Hin. repeat (destruct Hin as [Hin | Hin]; [discriminate Hin|]).
    done. }
  split.
  - destruct (copy_model _ _ fs) as [[out|e] fs']; [|done].
    destruct (h5_open _) as [e|f]; [done|].
    destruct (local_data f) as [e|[|[k v] rest]]; [done..|].
    by destruct (delete_local_data f k).
  - intros out fs' f k v rest f' -> Hopen Hdata Hdel.
    by rewrite Hopen, Hdata, Hdel.
Qed.

End IlastikFacts.


Lemma main_no_save_writes_nothing_witness :
  (SegmentStacks.main false SegmentStacks.dry_run_args
     SegmentStacks.example_files).2
  = SegmentStacks.example_files.
Proof. apply main_no_save_writes_nothing. reflexivity. Defined.

Lemma figure_of_stack_without_full_suffix_witness :
  Forall (λ file, file = "s1/tiffs/roi3.tiff" ∧ true = true)
    (Outputs.figures
       (SegmentStacks.segment_one SegmentStacks.overwriting_args
          SegmentStacks.plain_roi SegmentStacks.plain_files).1.1).
Proof.
  apply (figure_of_stack_without_full_suffix SegmentStacks.overwriting_args
           SegmentStacks.plain_roi SegmentStacks.plain_files).
  reflexivity.
Defined.

Lemma clusters_cold_start_raises_witness :
  is_ok (Project.clusters (Samples := Project.plain_samples)
           (Project.example_project, Project.example_fs)).1 = false.
Proof.
  apply (clusters_cold_start_raises (Samples := Project.plain_samples)
           Project.example_project Project.example_fs).
  intros p file Hfile.
  change ((∅ : gmap (list string) Pandas.csv) !! p = Some file) in Hfile.
  rewrite lookup_empty in Hfile. discriminate Hfile.
Defined.

Lemma set_clusters_returns_witness :
  Project.is_dir
    (Project.set_clusters (Samples := Project.plain_samples)
       (Some Project.example_clusters) true None
       (Project.example_project, Project.fresh_fs)).2.2
    ["data"; "results"; "single_cell"]
  = true.
Proof.
  destruct (set_clusters_returns (Samples := Project.plain_samples)
              Project.example_clusters true None Project.example_project
              (Project.set_clusters (Samples := Project.plain_samples)
                 (Some Project.example_clusters) true None
                 (Project.example_project, Project.fresh_fs)).2.1
              Project.fresh_fs
              (Project.set_clusters (Samples := Project.plain_samples)
                 (Some Project.example_clusters) true None
                 (Project.example_project, Project.fresh_fs)).2.2)
    as (_ & Hdir & _).
  - vm_compute. reflexivity.
  - exact Hdir.
Defined.

Lemma samples_of_processed_dir_witness :
  ∃ detected,
    Project._detect_samples Project.example_project
      (Project.Entries [("s1", true); ("notes.txt", false); ("s2", true)])
    = Ok detected
    ∧ Project._initialize_project_from_annotation
        (Samples := Project.plain_samples) (Tuples := Project.first_appearance)
        Project.example_project detected None None ∅
      = Ok (map (λ n, {|
                   Project.arg_sample_name := Pandas.VStr n;
                   Project.arg_root_dir := ["data"; "processed"; n];
                   Project.arg_subfolder_per_sample := true;
                   Project.arg_metadata := None;
                   Project.arg_panel_metadata := None;
                   Project.arg_kwargs := ∅ |}) ["s1"; "s2"]).
Proof.
  apply (samples_of_processed_dir (Samples := Project.plain_samples)
           (Tuples := Project.first_appearance) Project.example_project
           (Project.Entries [("s1", true); ("notes.txt", false); ("s2", true)])
           None ∅ ["s1"; "s2"]).
  - reflexivity.
  - reflexivity.
  - reflexivity.
  - intros k _. apply lookup_empty.
  - reflexivity.
  - apply (bool_decide_unpack _). vm_compute. exact I.
Defined.

Lemma convert_model_data_raises_witness :
  Ilastik.convert_model_data (H := Ilastik.obliging_h5py)
    "models/utuc.ilp" None [(-1)%Z] {["models/utuc.ilp" := "trained"]}
  = inl (Ilastik.ImportError "imc.segmentation" "normalize").
Proof.
  apply (proj2 (convert_model_data_raises (H := Ilastik.obliging_h5py)
                  "models/utuc.ilp" None [(-1)%Z]
                  {["models/utuc.ilp" := "trained"]})
           "models/utuc.converted.ilp"
           (<["models/utuc.converted.ilp" := "trained"]>
              (<["models/utuc.converted.ilp" := EmptyString]>
                 {["models/utuc.ilp" := "trained"]}))
           tt "dataset0" tt [] tt).
  - reflexivity.
  - reflexivity.
  - reflexivity.
  - reflexivity.
Defined.
